(** * apply.py: fetching and applying features from the features database

    A shallow embedding of [apply.py].  The script talks to three things
    outside itself: the GitHub HTTP endpoints, the local file system and
    the terminal.  They are modelled by an explicit [World] that every
    function threads through a small state-and-exception monad; the
    Python built-ins the script relies on ([str.lower], [str.strip],
    [str.split], [int], f-strings) are modelled in module [Py]. *)

From Stdlib Require Import ZArith List Ascii String Bool Lia.
From Stdlib.Strings Require Import Byte.
From Stdlib Require Import DecimalString.
From stdpp Require Import base option gmap strings list.

Local Open Scope string_scope.
Local Open Scope list_scope.
Local Open Scope Z_scope.

(** ** Python strings

    A [str] is modelled as a [string] of 8-bit characters, which covers
    the ASCII inputs the prompts are meant for.  The functions work on
    the character list of the string. *)
Module Py.

(** [c.isspace()] on ASCII: TAB, LF, VT, FF, CR, FS, GS, RS, US and SPACE. *)
Definition isspace (c : ascii) : bool :=
  let n := nat_of_ascii c in
  ((9 <=? n) && (n <=? 13) || (28 <=? n) && (n <=? 32))%nat.

Definition isupper (c : ascii) : bool :=
  let n := nat_of_ascii c in ((65 <=? n) && (n <=? 90))%nat.

Definition lower_char (c : ascii) : ascii :=
  if isupper c then ascii_of_nat (nat_of_ascii c + 32) else c.

(** [s.lower()] *)
Definition lower (s : string) : string :=
  string_of_list_ascii (List.map lower_char (list_ascii_of_string s)).

Fixpoint lstrip_chars (l : list ascii) : list ascii :=
  match l with
  | c :: l' => if isspace c then lstrip_chars l' else l
  | [] => []
  end.

Definition strip_chars (l : list ascii) : list ascii :=
  List.rev (lstrip_chars (List.rev (lstrip_chars l))).

(** [s.strip()] *)
Definition strip (s : string) : string :=
  string_of_list_ascii (strip_chars (list_ascii_of_string s)).

(** [s.split(sep)] for a one-character separator: the pieces between the
    separators, empty pieces included, so the result is never empty. *)
Fixpoint split_chars (sep : ascii) (cur : list ascii) (l : list ascii)
  : list (list ascii) :=
  match l with
  | [] => [List.rev cur]
  | c :: l' =>
      if Ascii.eqb c sep then List.rev cur :: split_chars sep [] l'
      else split_chars sep (c :: cur) l'
  end.

Definition split (sep : ascii) (s : string) : list string :=
  List.map string_of_list_ascii (split_chars sep [] (list_ascii_of_string s)).

Definition isdigit (c : ascii) : bool :=
  let n := nat_of_ascii c in ((48 <=? n) && (n <=? 57))%nat.

Definition digit_value (c : ascii) : Z := Z.of_nat (nat_of_ascii c) - 48.

(** The digits of a decimal literal: at least one digit, and single
    underscores allowed between digits only.  [prev] tells whether the
    previous character was a digit. *)
Fixpoint int_digits (acc : Z) (prev : bool) (l : list ascii) : option Z :=
  match l with
  | [] => if prev then Some acc else None
  | c :: l' =>
      if isdigit c then int_digits (10 * acc + digit_value c) true l'
      else if Ascii.eqb c "_" then
             if prev then int_digits acc false l' else None
      else None
  end.

Definition int_chars (l : list ascii) : option Z :=
  match l with
  | "+"%char :: l' => int_digits 0 false l'
  | "-"%char :: l' => Z.opp <$> int_digits 0 false l'
  | _ => int_digits 0 false l
  end.

(** [int(s)]: [None] stands for the [ValueError] Python raises.  The
    surrounding white space is dropped, then an optional sign and a
    decimal literal are read. *)
Definition int (s : string) : option Z :=
  int_chars (strip_chars (list_ascii_of_string s)).

(** [str(n)], as an f-string prints an integer. *)
Definition str_of_int (n : Z) : string :=
  NilZero.string_of_int (Z.to_int n).

(** [s.startswith(pre)] *)
Fixpoint startswith (s pre : string) {struct pre} : bool :=
  match pre with
  | EmptyString => true
  | String a pre' =>
      match s with
      | String b s' => Ascii.eqb a b && startswith s' pre'
      | EmptyString => false
      end
  end.

(** [repr(l)] of a list of strings, as an f-string prints it. *)
Definition repr_list (l : list string) : string :=
  "[" +:+ String.concat ", " (List.map (fun s => "'" +:+ s +:+ "'") l) +:+ "]".

(** [len(l)] *)
Definition len {A} (l : list A) : Z := Z.of_nat (length l).

(** [l[i]]: a negative index counts from the end; [None] stands for
    the [IndexError]. *)
Definition getitem {A} (l : list A) (i : Z) : option A :=
  if 0 <=? i then l !! Z.to_nat i
  else if 0 <=? len l + i then l !! Z.to_nat (len l + i)
  else None.

(** [c * n] for a one-character string [c]. *)
Definition repeat_char (c : ascii) (n : nat) : string :=
  string_of_list_ascii (List.repeat c n).

End Py.

(** ** The world outside the script *)

(** One HTTP GET as [requests.get(url, headers=...)] issues it. *)
Record Request := { req_url : string; req_headers : option (list (string * string)) }.

(** One JSON object of a GitHub contents listing: [item["name"]] and
    [item["type"]]. *)
Record item := { name : string; type : string }.

(** What [requests.get] returns: the status line, the raw body
    ([response.content]) and the decoded listing ([response.json()]). *)
Record Response := {
  status_code : Z;
  reason : string;
  url : string;
  content : list byte;
  json : list item
}.

(** The remote either answers or the request fails below HTTP. *)
Inductive Reply :=
| Answer (r : Response)
| NetworkFault (msg : string).

(** The file system: a finite map from paths (lists of components, below
    the working directory, which is the empty path) to directories and
    files.  The working directory always exists. *)
Inductive node :=
| Dir
| File (data : list byte).

Record World := {
  fs : gmap (list string) node;
  stdin : list string;          (* the lines still to be typed *)
  stdout : list string;         (* what was printed, one entry per call *)
  sent : list Request           (* the requests issued so far *)
}.

Definition set_fs (f : gmap (list string) node) (w : World) : World :=
  {| fs := f; stdin := stdin w; stdout := stdout w; sent := sent w |}.
Definition set_stdin (i : list string) (w : World) : World :=
  {| fs := fs w; stdin := i; stdout := stdout w; sent := sent w |}.
Definition set_stdout (o : list string) (w : World) : World :=
  {| fs := fs w; stdin := stdin w; stdout := o; sent := sent w |}.
Definition set_sent (r : list Request) (w : World) : World :=
  {| fs := fs w; stdin := stdin w; stdout := stdout w; sent := r |}.

(** ** Exceptions *)

Inductive exn_class :=
| HTTPError | ConnectionError | OSError | ValueError | IndexError | EOFError
| KeyboardInterrupt | EnvError.

Record exn := Exn { exn_cls : exn_class; exn_msg : string }.

(** [isinstance(e, requests.exceptions.RequestException)] *)
Definition is_RequestException (e : exn) : bool :=
  match exn_cls e with HTTPError | ConnectionError => true | _ => false end.

(** [isinstance(e, OSError)]: [RequestException] derives from [IOError]. *)
Definition is_OSError (e : exn) : bool :=
  match exn_cls e with
  | HTTPError | ConnectionError | OSError => true
  | _ => false
  end.

Definition is_ValueError (e : exn) : bool :=
  match exn_cls e with ValueError => true | _ => false end.

Definition is_KeyboardInterrupt (e : exn) : bool :=
  match exn_cls e with KeyboardInterrupt => true | _ => false end.

(** [isinstance(e, Exception)]: everything but [KeyboardInterrupt]. *)
Definition is_Exception (e : exn) : bool :=
  match exn_cls e with KeyboardInterrupt => false | _ => true end.

(** ** The monad: state, exceptions and divergence *)

Inductive Outcome (A : Type) :=
| Return (a : A) (w : World)
| Raise (e : exn) (w : World)
| Diverge.
Arguments Return {A} a w.
Arguments Raise {A} e w.
Arguments Diverge {A}.

Definition M (A : Type) : Type := World -> Outcome A.

#[export] Instance M_ret : MRet M := fun A a w => Return a w.

#[export] Instance M_bind : MBind M := fun A B f m w =>
  match m w with
  | Return a w' => f a w'
  | Raise e w' => Raise e w'
  | Diverge => Diverge
  end.

Definition raise {A} (e : exn) : M A := fun w => Raise e w.

Definition diverge {A} : M A := fun _ => Diverge.

(** [try: body except C1 as e: h1 except C2 as e: h2 ...]: the first
    clause whose class matches handles the exception; the effects of
    [body] up to the raise stay. *)
Definition try_except {A} (body : M A)
    (clauses : list ((exn -> bool) * (exn -> M A))) : M A := fun w =>
  match body w with
  | Raise e w' =>
      match List.find (fun c => c.1 e) clauses with
      | Some c => c.2 e w'
      | None => Raise e w'
      end
  | o => o
  end.

(** [for x in l: acc = body(acc, x)], the loop's variables threaded as [acc]. *)
Fixpoint for_ {A B} (l : list A) (body : B -> A -> M B) (acc : B) : M B :=
  match l with
  | [] => mret acc
  | x :: l' => acc' ← body acc x; for_ l' body acc'
  end.

(** [[f(x) for x in l]], where [f] may raise. *)
Fixpoint list_comp {A B} (f : A -> M B) (l : list A) : M (list B) :=
  match l with
  | [] => mret []
  | x :: l' => y ← f x; ys ← list_comp f l'; mret (y :: ys)
  end.

(** ** Terminal *)

Definition print (s : string) : M unit := fun w =>
  Return tt (set_stdout (stdout w ++ [s]) w).

(** [input(prompt)]: shows the prompt and reads one line. *)
Definition input (prompt : string) : M string := fun w =>
  let w := set_stdout (stdout w ++ [prompt]) w in
  match stdin w with
  | line :: rest => Return line (set_stdin rest w)
  | [] => Raise (Exn EOFError "EOF when reading a line") w
  end.

(** ** Paths and the file system *)

(** [Path(s)]: the components of [s], with empty and [.] components
    dropped as pathlib does.  Paths are read below the working
    directory, which is the root of the model. *)
Definition Path (s : string) : list string :=
  List.filter (fun c => negb (String.eqb c "" || String.eqb c "."))
              (Py.split "/" s).

(** [str(path)] *)
Definition Path_str (p : list string) : string :=
  match p with [] => "." | _ => String.concat "/" p end.

(** [path.parent] *)
Definition parent (p : list string) : list string := removelast p.

(** [os.path.abspath(s)], the working directory being the model's root. *)
Definition abspath (s : string) : string := "/" +:+ String.concat "/" (Path s).

(** Walking down from [above] through the components [todo], every step
    a directory. *)
Fixpoint resolves (f : gmap (list string) node) (above todo : list string)
  : bool :=
  match todo with
  | [] => true
  | c :: rest =>
      match f !! (above ++ [c]) with
      | Some Dir => resolves f (above ++ [c]) rest
      | _ => false
      end
  end.

(** [p.is_dir()] *)
Definition is_dir (f : gmap (list string) node) (p : list string) : bool :=
  resolves f [] p.

(** Creating the directories [above ++ [c1]], [above ++ [c1; c2]], ... in
    turn, keeping the ones that exist; a file in the way is an error. *)
Fixpoint makedirs_from (f : gmap (list string) node) (above todo : list string)
  : exn + gmap (list string) node :=
  match todo with
  | [] => inr f
  | c :: rest =>
      let p := above ++ [c] in
      match f !! p with
      | Some Dir => makedirs_from f p rest
      | Some (File _) =>
          inl (Exn OSError
                 (match rest with
                  | [] => "[Errno 17] File exists: '" +:+ Path_str p +:+ "'"
                  | _ => "[Errno 20] Not a directory: '" +:+ Path_str (p ++ rest) +:+ "'"
                  end))
      | None => makedirs_from (<[p := Dir]> f) p rest
      end
  end.

(** [os.makedirs(p, exist_ok=True)] and
    [p.mkdir(parents=True, exist_ok=True)]. *)
Definition makedirs (p : list string) : M unit := fun w =>
  match makedirs_from (fs w) [] p with
  | inr f => Return tt (set_fs f w)
  | inl e => Raise e w
  end.

(** [with open(p, "wb") as file: file.write(data)] *)
Definition open_wb_write (p : list string) (data : list byte) : M unit := fun w =>
  if is_dir (fs w) p then
    Raise (Exn OSError ("[Errno 21] Is a directory: '" +:+ Path_str p +:+ "'")) w
  else if is_dir (fs w) (parent p) then
    Return tt (set_fs (<[p := File data]> (fs w)) w)
  else
    Raise (Exn OSError
             ("[Errno 2] No such file or directory: '" +:+ Path_str p +:+ "'")) w.

(** Reading a file back, for stating what a download leaves on disk. *)
Definition read_bytes (f : gmap (list string) node) (p : list string)
  : option (list byte) :=
  match f !! p with Some (File data) => Some data | _ => None end.

(** ** Start-up configuration *)

Definition dquote : string := String (ascii_of_nat 34) EmptyString.
Definition newline : string := String (ascii_of_nat 10) EmptyString.

(** [env.str(name)] of environs, called without a default: the value of
    the variable, and an error when the variable is not set. *)
Definition env_str (env : gmap string string) (var : string) : exn + string :=
  match env !! var with
  | Some v => inr v
  | None =>
      inl (Exn EnvError
             ("Environment variable " +:+ dquote +:+ var +:+ dquote +:+ " not set"))
  end.

Definition REPO : string := "python-boilerplate/features-database".
Definition BRANCH : string := "main".
Definition FEATURES_DIR : string := "features".
Definition API_URL : string :=
  "https://api.github.com/repos/" +:+ REPO +:+ "/contents/" +:+ FEATURES_DIR
  +:+ "?ref=" +:+ BRANCH.
(** [API_FEATURE_CONTENT_URL.format(feature=feature)] *)
Definition API_FEATURE_CONTENT_URL (feature : string) : string :=
  "https://api.github.com/repos/" +:+ REPO +:+ "/contents/" +:+ FEATURES_DIR
  +:+ "/" +:+ feature +:+ "?ref=" +:+ BRANCH.
Definition RAW_URL : string :=
  "https://raw.githubusercontent.com/" +:+ REPO +:+ "/" +:+ BRANCH +:+ "/"
  +:+ FEATURES_DIR.

Definition GITHUB_TOKEN (env : gmap string string) : exn + string :=
  env_str env "GITHUB_API_TOKEN".

(** [{"Authorization": f"token {GITHUB_TOKEN}"} if GITHUB_TOKEN else None] *)
Definition HEADERS_of (token : string) : option (list (string * string)) :=
  match token with
  | EmptyString => None
  | _ => Some [("Authorization", "token " +:+ token)]
  end.

(** The module-level assignments, in order: reading the token may fail. *)
Definition load_constants (env : gmap string string)
  : exn + option (list (string * string)) :=
  match GITHUB_TOKEN env with
  | inl e => inl e
  | inr token => inr (HEADERS_of token)
  end.

(** ** The functions of the script *)

Section Script.

(** The remote end, and the headers computed at start-up. *)
Context (remote : Request -> Reply).
Context (HEADERS : option (list (string * string))).

(** [requests.get(url, headers=HEADERS)] *)
Definition requests_get (u : string) : M Response := fun w =>
  let rq := {| req_url := u; req_headers := HEADERS |} in
  let w := set_sent (sent w ++ [rq]) w in
  match remote rq with
  | Answer r => Return r w
  | NetworkFault msg => Raise (Exn ConnectionError msg) w
  end.

(** [response.raise_for_status()] *)
Definition raise_for_status (r : Response) : M unit :=
  if ((400 <=? status_code r) && (status_code r <? 500))%Z then
    raise (Exn HTTPError (Py.str_of_int (status_code r) +:+ " Client Error: "
                          +:+ reason r +:+ " for url: " +:+ url r))
  else if ((500 <=? status_code r) && (status_code r <? 600))%Z then
    raise (Exn HTTPError (Py.str_of_int (status_code r) +:+ " Server Error: "
                          +:+ reason r +:+ " for url: " +:+ url r))
  else mret tt.

Definition fetch_available_features : M (list string) :=
  response ← requests_get API_URL;
  _ ← raise_for_status response;
  let data := json response in
  let features := List.map name data in
  mret features.

(** The body of the loop of [fetch_feature_files] for one [item];
    [recurse] is the function itself, called on a sub-directory. *)
Definition fetch_item (recurse : string -> M (list string))
    (feature_name : string) (files : list string) (item : item)
  : M (list string) :=
  let files :=
    if String.eqb (type item) "file" then files ++ [name item] else files in
  if String.eqb (type item) "dir" then
    (* If it's a directory, we can recursively list files in it *)
    sub_files ← recurse (feature_name +:+ "/" +:+ name item);
    mret (files ++ List.map (fun sub_file => name item +:+ "/" +:+ sub_file)
                            sub_files)
  else mret files.

(** The recursion follows the remote tree, which the script does not
    bound: [fuel] bounds the depth of the calls, and running out of it
    is [Diverge]. *)
Fixpoint fetch_feature_files (fuel : nat) (feature_name : string)
  : M (list string) :=
  match fuel with
  | O => diverge
  | S fuel' =>
      response ← requests_get (API_FEATURE_CONTENT_URL feature_name);
      _ ← raise_for_status response;
      let data := json response in
      for_ data (fetch_item (fetch_feature_files fuel') feature_name) []
  end.

Definition download_feature_file (u : string) (path : list string) : M unit :=
  response ← requests_get u;
  _ ← raise_for_status response;
  _ ← open_wb_write path (content response);
  print ("File successfully downloaded: " +:+ Path_str path).

Definition display_available_features (fuel : nat) (features : list string)
  : M unit :=
  _ ← print ("Available features:" +:+ newline);
  _ ← for_ features (fun idx feature =>
        _ ← print (Py.str_of_int (idx + 1) +:+ ": " +:+ feature);
        _ ← try_except
              (feature_files ← fetch_feature_files fuel feature;
               print ("Feature files: " +:+ Py.repr_list feature_files))
              [(is_RequestException, fun e =>
                  print ("Warning: Could not list files for " +:+ feature +:+ ": "
                         +:+ exn_msg e))];
        mret (idx + 1)) 0;
  mret tt.

(** [int(x.strip()) - 1] *)
Definition index_of_token (x : string) : M Z :=
  match Py.int (Py.strip x) with
  | Some n => mret (n - 1)
  | None =>
      raise (Exn ValueError ("invalid literal for int() with base 10: '"
                             +:+ Py.strip x +:+ "'"))
  end.

Definition get_user_feature_selection (features : list string)
  : M (list string) :=
  selected ← input (newline
    +:+ "Enter the number of the feature you want to apply using comma "
    +:+ "        (or 'all' to apply all features): ");
  if String.eqb (Py.strip (Py.lower selected)) "all" then mret features
  else
    try_except
      (indices ← list_comp index_of_token (Py.split "," selected);
       (* Validate indices *)
       _ ← for_ indices (fun (_ : unit) idx =>
             if (idx <? 0) || (Py.len features <=? idx) then
               raise (Exn ValueError
                        ("Invalid feature number: " +:+ Py.str_of_int (idx + 1)
                         +:+ ". Valid range: 1-"
                         +:+ Py.str_of_int (Py.len features)))
             else mret tt) tt;
       list_comp (fun i =>
                    match Py.getitem features i with
                    | Some f => mret f
                    | None => raise (Exn IndexError "list index out of range")
                    end) indices)
      [(is_ValueError, fun e =>
          _ ← print ("Error: Invalid input - " +:+ exn_msg e);
          _ ← print "Please enter comma-separated numbers or 'all'";
          mret [])].

Definition setup_target_directory : M string :=
  raw ← input "In which directory should the files be downloaded? (Enter = current):";
  let target_dir :=
    match Py.strip raw with EmptyString => "." | stripped => stripped end in
  try_except
    (_ ← makedirs (Path target_dir);
     _ ← print ("Target directory: " +:+ abspath target_dir);
     mret target_dir)
    [(is_OSError, fun e =>
        _ ← print ("Error: Could not create directory '" +:+ target_dir +:+ "': "
                   +:+ exn_msg e);
        mret "")].

(** The two counters are the loops' variables.  The inner [try] covers
    one file; the outer one covers the listing and the whole inner loop,
    which itself lets no exception out (lemma [files_loop_outcome]),
    so the outer handler only ever runs with the counters as they were
    before the feature. *)
Definition download_feature_files (fuel : nat)
    (chosen_features : list string) (target_dir : string) : M (Z * Z) :=
  for_ chosen_features (fun '(total_files, successful_downloads) feature =>
    _ ← print (newline +:+ "Processing feature: " +:+ feature);
    try_except
      (feature_files ← fetch_feature_files fuel feature;
       for_ feature_files (fun '(total_files, successful_downloads) file =>
         let total_files := total_files + 1 in
         successful_downloads ←
           try_except
             (let file_url := RAW_URL +:+ "/" +:+ feature +:+ "/" +:+ file in
              let file_path := Path target_dir ++ Path file in
              (* Create parent directories if needed *)
              _ ← makedirs (parent file_path);
              _ ← download_feature_file file_url file_path;
              mret (successful_downloads + 1))
             [(is_RequestException, fun e =>
                 _ ← print ("Error downloading " +:+ file +:+ ": " +:+ exn_msg e);
                 mret successful_downloads);
              (is_OSError, fun e =>
                 _ ← print ("Error saving " +:+ file +:+ ": " +:+ exn_msg e);
                 mret successful_downloads)];
         mret (total_files, successful_downloads))
         (total_files, successful_downloads))
      [(is_RequestException, fun e =>
          _ ← print ("Error processing feature " +:+ feature +:+ ": " +:+ exn_msg e);
          mret (total_files, successful_downloads))])
    (0, 0).

Definition display_summary (total_files successful_downloads : Z) : M unit :=
  _ ← print (newline +:+ Py.repeat_char "=" 50);
  _ ← print "Download Summary:";
  _ ← print ("Total files: " +:+ Py.str_of_int total_files);
  _ ← print ("Successfully downloaded: " +:+ Py.str_of_int successful_downloads);
  _ ← print ("Failed downloads: "
             +:+ Py.str_of_int (total_files - successful_downloads));
  if (successful_downloads =? total_files) && (0 <? total_files) then
    print (newline +:+ "All selected features have been applied successfully!")
  else if 0 <? successful_downloads then
    print (newline +:+ "Partially completed: "
           +:+ Py.str_of_int successful_downloads +:+ "/"
           +:+ Py.str_of_int total_files +:+ " files downloaded.")
  else
    print (newline
           +:+ "No files were downloaded. Please check your connection and try again.").

Definition main (fuel : nat) : M unit :=
  try_except
    ((* Fetch available features *)
     _ ← print "Fetching available features...";
     features ← fetch_available_features;
     (* Display features and their files *)
     _ ← display_available_features fuel features;
     (* Get user selection *)
     chosen_features ← get_user_feature_selection features;
     match chosen_features with
     | [] => mret tt
     | _ =>
         (* Setup target directory *)
         target_dir ← setup_target_directory;
         match target_dir with
         | EmptyString => mret tt
         | _ =>
             (* Download selected feature files *)
             '(total_files, successful_downloads) ←
               download_feature_files fuel chosen_features target_dir;
             (* Display operation summary *)
             display_summary total_files successful_downloads
         end
     end)
    [(is_RequestException, fun e =>
        _ ← print ("Error: Could not connect to GitHub API: " +:+ exn_msg e);
        print "Please check your internet connection and GitHub token.");
     (is_KeyboardInterrupt, fun _ =>
        print (newline +:+ "Operation cancelled by user."));
     (is_Exception, fun e =>
        _ ← print ("Unexpected error: " +:+ exn_msg e);
        print "Please try again or report this issue.")].

End Script.

(** Running the script: the module-level code, then [main()].  An
    exception at module level is not handled by anything. *)
Definition script (env : gmap string string) (remote : Request -> Reply)
    (fuel : nat) : M unit := fun w =>
  match load_constants env with
  | inl e => Raise e w
  | inr HEADERS => main remote HEADERS fuel w
  end.

(** ** Definitions used to state the properties *)

(** The line printed last, if any. *)
Definition last_printed {A} (o : Outcome A) : option string :=
  match o with
  | Return _ w | Raise _ w => last (stdout w)
  | Diverge => None
  end.

Definition ALL_MSG : string :=
  newline +:+ "All selected features have been applied successfully!".
Definition PARTIAL_MSG (successful total : Z) : string :=
  newline +:+ "Partially completed: " +:+ Py.str_of_int successful +:+ "/"
  +:+ Py.str_of_int total +:+ " files downloaded.".
Definition NONE_MSG : string :=
  newline
  +:+ "No files were downloaded. Please check your connection and try again.".

(** The summary as the specification words it: all succeeded when
    [successful = total] and [total > 0], partially completed when
    [0 < successful < total], no files downloaded otherwise. *)
Definition claimed_summary (total successful : Z) : string :=
  if (successful =? total) && (0 <? total) then ALL_MSG
  else if (0 <? successful) && (successful <? total) then
         PARTIAL_MSG successful total
  else NONE_MSG.

(** A world with nothing on disk, nothing typed, printed or sent. *)
Definition empty_world : World :=
  {| fs := ∅; stdin := []; stdout := []; sent := [] |}.

(** White space only. *)
Definition blank (l : list ascii) : Prop :=
  Forall (fun c => Py.isspace c = true) l.
Definition blank_str (s : string) : Prop := blank (list_ascii_of_string s).

(** [s] is the word "all" in some letter case, with white space around. *)
Definition spells_all (s : string) : Prop :=
  exists pre core post,
    s = pre +:+ core +:+ post /\ blank_str pre /\ blank_str post /\
    In core ["all"; "alL"; "aLl"; "aLL"; "All"; "AlL"; "ALl"; "ALL"].

(** A token that is no integer, or no 1-based index into [features]. *)
Definition bad_token (features : list string) (tok : string) : Prop :=
  match Py.int tok with
  | None => True
  | Some n => n < 1 \/ Py.len features < n
  end.

(** The prompt of [get_user_feature_selection]. *)
Definition selection_prompt : string :=
  newline +:+ "Enter the number of the feature you want to apply using comma "
  +:+ "        (or 'all' to apply all features): ".

(** The world once [input] has shown its prompt and consumed a line. *)
Definition prompted (prompt : string) (rest : list string) (w : World) : World :=
  set_stdin rest (set_stdout (stdout w ++ [prompt]) w).

(** *** Remote trees

    A directory of the remote repository, as a finite tree: an entry has
    a name, a type and, when it is a directory, the entries below it. *)
#[local] Unset Elimination Schemes.
Inductive entry :=
| Entry (entry_name entry_type : string) (children : list entry).
#[local] Set Elimination Schemes.

Definition entry_item (e : entry) : item :=
  match e with Entry n t _ => {| name := n; type := t |} end.

Definition entry_type_of (e : entry) : string :=
  match e with Entry _ t _ => t end.

(** The relative paths below an entry, as the specification words them:
    a file gives its name; a directory gives the paths of its entries,
    in listing order, each prefixed with the directory's name and [/]. *)
Fixpoint relative_paths (e : entry) : list string :=
  match e with
  | Entry n t children =>
      if String.eqb t "file" then [n]
      else if String.eqb t "dir" then
             List.map (fun p => n +:+ "/" +:+ p)
                      (List.flat_map relative_paths children)
      else []
  end.

(** The listing request for [path] is answered successfully with [items]. *)
Definition lists (remote : Request -> Reply)
    (HEADERS : option (list (string * string)))
    (path : string) (items : list item) : Prop :=
  exists r,
    remote {| req_url := API_FEATURE_CONTENT_URL path; req_headers := HEADERS |}
    = Answer r /\
    (status_code r < 400 \/ 600 <= status_code r) /\
    json r = items.

(** The remote serves the tree [entries] at [path], the tree being at
    most [depth] directories deep. *)
Fixpoint serves (remote : Request -> Reply)
    (HEADERS : option (list (string * string)))
    (depth : nat) (path : string) (entries : list entry) : Prop :=
  match depth with
  | O => False
  | S depth' =>
      lists remote HEADERS path (List.map entry_item entries) /\
      Forall (fun e =>
                match e with
                | Entry n t children =>
                    t = "dir" ->
                    serves remote HEADERS depth' (path +:+ "/" +:+ n) children
                end) entries
  end.

(** Entries that are files or directories. *)
Definition file_or_dir (i : item) : bool :=
  String.eqb (type i) "file" || String.eqb (type i) "dir".

(** *** Frame conditions

    [respects R E m]: every run of [m] that ends relates the worlds
    before and after by [R], and raises exceptions of [E] only. *)
Definition respects {A} (R : World -> World -> Prop) (E : exn -> bool)
    (m : M A) : Prop :=
  forall w,
    match m w with
    | Return _ w' => R w w'
    | Raise e w' => R w w' /\ E e = true
    | Diverge => True
    end.

(** What a run returned or raised, the world left out. *)
Definition result_of {A} (o : Outcome A) : option (A + exn) :=
  match o with
  | Return a _ => Some (inl a)
  | Raise e _ => Some (inr e)
  | Diverge => None
  end.

(** [m] returns or raises the same whatever the world. *)
Definition world_blind {A} (m : M A) : Prop :=
  forall w1 w2, result_of (m w1) = result_of (m w2).

(** A request for a file of a feature, as opposed to a listing. *)
Definition is_download (rq : Request) : bool :=
  Py.startswith (req_url rq) RAW_URL.

(** Only requests were added, none of them a download. *)
Definition only_listed (w w' : World) : Prop :=
  fs w' = fs w /\ stdin w' = stdin w /\ stdout w' = stdout w /\
  exists new, sent w' = sent w ++ new /\
              Forall (fun rq => is_download rq = false) new.

(** A fresh world in which the user types [lines]. *)
Definition typing (lines : list string) : World :=
  {| fs := ∅; stdin := lines; stdout := []; sent := [] |}.

(** *** The target directory *)

(** The directory [setup_target_directory] works on for the line [raw]. *)
Definition target_of (raw : string) : string :=
  match Py.strip raw with EmptyString => "." | stripped => stripped end.

Definition directory_prompt : string :=
  "In which directory should the files be downloaded? (Enter = current):".

(** The world after [setup_target_directory] made (or found) the
    directory: [f] is the file system with the directory in it. *)
Definition directory_ready (raw : string) (f : gmap (list string) node)
    (rest : list string) (w : World) : World :=
  set_fs f
    (set_stdout (stdout w ++ [directory_prompt;
                              "Target directory: " +:+ abspath (target_of raw)])
       (set_stdin rest w)).

(** The world after [setup_target_directory] failed with [e]. *)
Definition directory_failed (raw : string) (e : exn)
    (rest : list string) (w : World) : World :=
  set_stdout (stdout w ++ [directory_prompt;
                           "Error: Could not create directory '"
                           +:+ target_of raw +:+ "': " +:+ exn_msg e])
    (set_stdin rest w).

(** The steps of [main] up to and including the selection. *)
Definition selection_phase (remote : Request -> Reply)
    (HEADERS : option (list (string * string))) (fuel : nat)
  : M (list string) :=
  _ ← print "Fetching available features...";
  features ← fetch_available_features remote HEADERS;
  _ ← display_available_features remote HEADERS fuel features;
  get_user_feature_selection features.

(** Nothing was written to disk and no download was requested. *)
Definition nothing_downloaded (w w' : World) : Prop :=
  fs w' = fs w /\
  exists new, sent w' = sent w ++ new /\
              Forall (fun rq => is_download rq = false) new.

(** Any exception. *)
Definition any_exn (e : exn) : bool := true.

(** *** Downloading

    The bodies of the two loops of [download_feature_files], named:
    [file_step] handles one file, [feature_step] one feature. *)
Definition file_step (remote : Request -> Reply)
    (HEADERS : option (list (string * string)))
    (target_dir feature : string) : Z * Z -> string -> M (Z * Z) :=
  fun '(total_files, successful_downloads) file =>
    let total_files := total_files + 1 in
    successful_downloads ←
      try_except
        (let file_url := RAW_URL +:+ "/" +:+ feature +:+ "/" +:+ file in
         let file_path := Path target_dir ++ Path file in
         _ ← makedirs (parent file_path);
         _ ← download_feature_file remote HEADERS file_url file_path;
         mret (successful_downloads + 1))
        [(is_RequestException, fun e =>
            _ ← print ("Error downloading " +:+ file +:+ ": " +:+ exn_msg e);
            mret successful_downloads);
         (is_OSError, fun e =>
            _ ← print ("Error saving " +:+ file +:+ ": " +:+ exn_msg e);
            mret successful_downloads)];
    mret (total_files, successful_downloads).

Definition feature_step (remote : Request -> Reply)
    (HEADERS : option (list (string * string)))
    (fuel : nat) (target_dir : string) : Z * Z -> string -> M (Z * Z) :=
  fun '(total_files, successful_downloads) feature =>
    _ ← print (newline +:+ "Processing feature: " +:+ feature);
    try_except
      (feature_files ← fetch_feature_files remote HEADERS fuel feature;
       for_ feature_files (file_step remote HEADERS target_dir feature)
            (total_files, successful_downloads))
      [(is_RequestException, fun e =>
          _ ← print ("Error processing feature " +:+ feature +:+ ": " +:+ exn_msg e);
          mret (total_files, successful_downloads))].


(** The notices of a run: one per file, of success or of failure. *)
Definition is_success_line (line : string) : bool :=
  Py.startswith line "File successfully downloaded: ".
Definition is_failure_line (line : string) : bool :=
  Py.startswith line "Error downloading " || Py.startswith line "Error saving ".

Definition reported_successes (out : list string) : Z :=
  Z.of_nat (length (List.filter is_success_line out)).
Definition reported_failures (out : list string) : Z :=
  Z.of_nat (length (List.filter is_failure_line out)).

(** *** A small remote, for examples

    The catalog of the specification's scenario: the feature [auth]
    holds [main.py], a directory [sub] with [helper.py], and a symbolic
    link; the feature [logging] holds two files, the first of which
    cannot be downloaded. *)
Definition answer_listing (u : string) (items : list item) : Reply :=
  Answer {| status_code := 200; reason := "OK"; url := u;
            content := []; json := items |}.

Definition answer_bytes (u : string) (data : list byte) : Reply :=
  Answer {| status_code := 200; reason := "OK"; url := u;
            content := data; json := [] |}.

Definition answer_not_found (u : string) : Reply :=
  Answer {| status_code := 404; reason := "Not Found"; url := u;
            content := []; json := [] |}.

Definition demo_remote (rq : Request) : Reply :=
  let u := req_url rq in
  if String.eqb u API_URL then
    answer_listing u [{| name := "auth"; type := "dir" |};
                      {| name := "logging"; type := "dir" |}]
  else if String.eqb u (API_FEATURE_CONTENT_URL "auth") then
    answer_listing u [{| name := "main.py"; type := "file" |};
                      {| name := "sub"; type := "dir" |};
                      {| name := "docs"; type := "symlink" |}]
  else if String.eqb u (API_FEATURE_CONTENT_URL "auth/sub") then
    answer_listing u [{| name := "helper.py"; type := "file" |}]
  else if String.eqb u (API_FEATURE_CONTENT_URL "logging") then
    answer_listing u [{| name := "log.py"; type := "file" |};
                      {| name := "fmt.py"; type := "file" |}]
  else if String.eqb u (RAW_URL +:+ "/auth/main.py") then
    answer_bytes u [x70; x61; x73; x73; x0a]
  else if String.eqb u (RAW_URL +:+ "/auth/sub/helper.py") then
    answer_bytes u [x00; xff]
  else if String.eqb u (RAW_URL +:+ "/logging/log.py") then
    NetworkFault "Connection reset by peer"
  else if String.eqb u (RAW_URL +:+ "/logging/fmt.py") then
    answer_bytes u []
  else answer_not_found u.

Definition auth_tree : list entry :=
  [Entry "main.py" "file" [];
   Entry "sub" "dir" [Entry "helper.py" "file" []];
   Entry "docs" "symlink" []].

(** Only requests carrying the headers [H] were added. *)
Definition sends_with (H : option (list (string * string))) (w w' : World)
  : Prop :=
  exists new, sent w' = sent w ++ new /\
              Forall (fun rq => req_headers rq = H) new.

(** *** A remote with a broken directory, for examples

    The feature [web] holds [app.py] and a directory [static] whose
    listing the remote refuses. *)
Definition broken_remote (rq : Request) : Reply :=
  let u := req_url rq in
  if String.eqb u (API_FEATURE_CONTENT_URL "web") then
    answer_listing u [{| name := "app.py"; type := "file" |};
                      {| name := "static"; type := "dir" |};
                      {| name := "README"; type := "file" |}]
  else if String.eqb u (API_FEATURE_CONTENT_URL "web/static") then
    Answer {| status_code := 500; reason := "Internal Server Error"; url := u;
              content := []; json := [] |}
  else NetworkFault "Name or service not known".

(** The world a run ended in. *)
Definition world_of {A} (o : Outcome A) : World :=
  match o with
  | Return _ w | Raise _ w => w
  | Diverge => empty_world
  end.

(** *** Displaying the catalog

    The line [display_available_features] prints about the files of a
    feature: the list, or the warning when the listing fails. *)
Definition listing_notice (remote : Request -> Reply)
    (HEADERS : option (list (string * string)))
    (fuel : nat) (feature : string) : string :=
  match fetch_feature_files remote HEADERS fuel feature empty_world with
  | Return files _ => "Feature files: " +:+ Py.repr_list files
  | Raise e _ =>
      "Warning: Could not list files for " +:+ feature +:+ ": " +:+ exn_msg e
  | Diverge => ""
  end.

(** The lines for the features numbered from [idx + 1] on. *)
Fixpoint catalog_lines (remote : Request -> Reply)
    (HEADERS : option (list (string * string)))
    (fuel : nat) (idx : Z) (features : list string) : list string :=
  match features with
  | [] => []
  | feature :: rest =>
      (Py.str_of_int (idx + 1) +:+ ": " +:+ feature)
      :: listing_notice remote HEADERS fuel feature
      :: catalog_lines remote HEADERS fuel (idx + 1) rest
  end.

(** *** Frames of a whole run *)

(** No exception. *)
Definition no_exn (e : exn) : bool := false.

(** What was on disk is still there: a directory is a directory, a file
    is a file (its bytes may have been replaced). *)
Definition keeps_disk (w w' : World) : Prop :=
  forall q n,
    fs w !! q = Some n ->
    match n with
    | Dir => fs w' !! q = Some Dir
    | File _ => exists data, fs w' !! q = Some (File data)
    end.

(** * Properties *)

(** ** Running the monad *)

Lemma run_bind {A B} (m : M A) (k : A -> M B) w :
  (m ≫= k) w = match m w with
               | Return a w' => k a w'
               | Raise e w' => Raise e w'
               | Diverge => Diverge
               end.
Proof. reflexivity. Qed.

Lemma run_ret {A} (a : A) w : mret (M := M) a w = Return a w.
Proof. reflexivity. Qed.

Lemma run_raise {A} e w : raise (A := A) e w = Raise e w.
Proof. reflexivity. Qed.

Lemma run_print s w : print s w = Return tt (set_stdout (stdout w ++ [s]) w).
Proof. reflexivity. Qed.

Ltac mstep :=
  first [ rewrite run_bind | rewrite run_print | rewrite run_ret
        | rewrite run_raise ];
  cbn beta iota.
Ltac msimpl := repeat mstep.

Ltac wsimpl :=
  unfold prompted, set_stdout, set_stdin, set_fs, set_sent;
  cbn [fs stdin stdout sent].

Lemma run_input prompt line rest w :
  stdin w = line :: rest -> input prompt w = Return line (prompted prompt rest w).
Proof. intros H. unfold input, prompted. cbn. by rewrite H. Qed.

Lemma run_try_except {A} (body : M A) clauses w :
  try_except body clauses w =
  match body w with
  | Raise e w' =>
      match List.find (fun c => c.1 e) clauses with
      | Some c => c.2 e w'
      | None => Raise e w'
      end
  | o => o
  end.
Proof. reflexivity. Qed.

(** ** The summary *)

Lemma display_summary_last t s w :
  last_printed (display_summary t s w) =
  Some (if (s =? t) && (0 <? t) then ALL_MSG
        else if 0 <? s then PARTIAL_MSG s t else NONE_MSG).
Proof.
  unfold display_summary. msimpl.
  destruct ((s =? t) && (0 <? t)); [|destruct (0 <? s)]; msimpl;
    cbn [last_printed stdout set_stdout]; apply last_snoc.
Qed.




(** ** Python strings *)


Lemma chars_app s t :
  list_ascii_of_string (s +:+ t) = list_ascii_of_string s ++ list_ascii_of_string t.
Proof. induction s as [|c s IH]; cbn; [done|]. by rewrite <- IH. Qed.

Lemma chars_inj s t : list_ascii_of_string s = list_ascii_of_string t -> s = t.
Proof.
  intros H. rewrite <- (string_of_list_ascii_of_string s), H.
  apply string_of_list_ascii_of_string.
Qed.

Lemma lstrip_blank pre l : blank pre -> Py.lstrip_chars (pre ++ l) = Py.lstrip_chars l.
Proof. induction 1 as [|c pre Hc _ IH]; cbn; [done|]. by rewrite Hc. Qed.

Lemma lstrip_nonblank c l : Py.isspace c = false -> Py.lstrip_chars (c :: l) = c :: l.
Proof. intros H. cbn. by rewrite H. Qed.

Lemma lstrip_split l : exists pre, l = pre ++ Py.lstrip_chars l /\ blank pre.
Proof.
  induction l as [|c l (pre & Hl & Hpre)].
  { exists []. split; [done | constructor]. }
  cbn. destruct (Py.isspace c) eqn:Hc.
  - exists (c :: pre). split; [cbn; by rewrite <- Hl | by constructor].
  - exists []. split; [done | constructor].
Qed.

Lemma lstrip_head l :
  Py.lstrip_chars l = [] \/
  exists c r, Py.lstrip_chars l = c :: r /\ Py.isspace c = false.
Proof.
  induction l as [|c l IH]; [by left|].
  cbn. destruct (Py.isspace c) eqn:Hc; [done|]. right. by exists c, l.
Qed.

Lemma lstrip_snoc l c :
  Py.isspace c = false -> exists s, Py.lstrip_chars (l ++ [c]) = s ++ [c].
Proof.
  intros Hc. induction l as [|d l (s & IH)]; cbn.
  - rewrite Hc. by exists [].
  - destruct (Py.isspace d); [by exists s|]. by exists (d :: l).
Qed.

Lemma strip_split l :
  exists pre post, l = pre ++ Py.strip_chars l ++ post /\ blank pre /\ blank post.
Proof.
  destruct (lstrip_split l) as (pre & Hl & Hpre).
  destruct (lstrip_split (rev (Py.lstrip_chars l))) as (post & Hr & Hpost).
  exists pre, (rev post). split_and!; [|done|].
  - unfold Py.strip_chars. rewrite <- rev_app_distr, <- Hr, rev_involutive. done.
  - by apply Forall_rev.
Qed.

(** A string that starts and ends with a visible character is what
    [strip] leaves of it, whatever white space surrounds it. *)
Lemma strip_core pre c mid d post :
  blank pre -> blank post -> Py.isspace c = false -> Py.isspace d = false ->
  Py.strip_chars (pre ++ (c :: mid ++ [d]) ++ post) = c :: mid ++ [d].
Proof.
  intros Hpre Hpost Hc Hd. unfold Py.strip_chars.
  rewrite lstrip_blank by done. cbn [app]. rewrite lstrip_nonblank by done.
  replace (rev (c :: (mid ++ [d]) ++ post)) with (rev post ++ d :: rev (c :: mid)).
  2:{ cbn. rewrite !rev_app_distr. cbn. by rewrite <- !app_assoc. }
  rewrite lstrip_blank by by apply Forall_rev.
  rewrite lstrip_nonblank by done. cbn. rewrite rev_app_distr, rev_involutive. done.
Qed.

Lemma lstrip_lstrip l : Py.lstrip_chars (Py.lstrip_chars l) = Py.lstrip_chars l.
Proof.
  destruct (lstrip_head l) as [->|(c & r & -> & Hc)]; [done|].
  by apply lstrip_nonblank.
Qed.

Lemma strip_shape l :
  Py.strip_chars l = [] \/
  exists c mid, Py.strip_chars l = c :: mid /\ Py.isspace c = false /\
                Py.lstrip_chars (rev (c :: mid)) = rev (c :: mid).
Proof.
  unfold Py.strip_chars.
  destruct (lstrip_head l) as [->|(c & r & -> & Hc)]; [by left|].
  cbn [rev]. destruct (lstrip_snoc (rev r) c Hc) as (s & Hs).
  rewrite Hs, rev_app_distr. cbn [rev app]. right. exists c, (rev s).
  split_and!; [done..|].
  cbn [rev]. rewrite rev_involutive, <- Hs. apply lstrip_lstrip.
Qed.

Lemma strip_strip l : Py.strip_chars (Py.strip_chars l) = Py.strip_chars l.
Proof.
  destruct (strip_shape l) as [->|(c & mid & -> & Hc & Hr)]; [done|].
  unfold Py.strip_chars at 1. rewrite lstrip_nonblank by done.
  by rewrite Hr, rev_involutive.
Qed.

Lemma isspace_lower c : Py.isspace (Py.lower_char c) = Py.isspace c.
Proof. by destruct c as [[] [] [] [] [] [] [] []]. Qed.

Lemma lstrip_lower l :
  Py.lstrip_chars (List.map Py.lower_char l) = List.map Py.lower_char (Py.lstrip_chars l).
Proof.
  induction l as [|c l IH]; [done|]. cbn. rewrite isspace_lower.
  by destruct (Py.isspace c).
Qed.

Lemma strip_lower l :
  Py.strip_chars (List.map Py.lower_char l) = List.map Py.lower_char (Py.strip_chars l).
Proof.
  unfold Py.strip_chars.
  by rewrite lstrip_lower, <- map_rev, lstrip_lower, map_rev.
Qed.

Lemma int_strip s : Py.int (Py.strip s) = Py.int s.
Proof.
  unfold Py.int, Py.strip.
  by rewrite list_ascii_of_string_of_list_ascii, strip_strip.
Qed.


Lemma split_nonempty sep s : Py.split sep s <> [].
Proof.
  unfold Py.split. generalize (@nil ascii).
  induction (list_ascii_of_string s) as [|c l IH]; intros cur; cbn; [done|].
  destruct (Ascii.eqb c sep); [done | apply IH].
Qed.

Lemma blank_lower l : blank l -> blank (List.map Py.lower_char l).
Proof.
  induction 1 as [|c l Hc _ IH]; cbn; constructor; [|done].
  by rewrite isspace_lower.
Qed.

Lemma spells_all_test s : spells_all s -> Py.strip (Py.lower s) = "all".
Proof.
  intros (pre & core & post & -> & Hpre & Hpost & Hcore).
  unfold Py.strip, Py.lower.
  rewrite list_ascii_of_string_of_list_ascii, !chars_app, !map_app.
  assert (List.map Py.lower_char (list_ascii_of_string core) = "a"%char :: ["l"%char] ++ ["l"%char]) as ->.
  { cbn in Hcore. by repeat destruct Hcore as [<-|Hcore]. }
  rewrite strip_core; [done | by apply blank_lower.. | done | done].
Qed.

Lemma lower_all_variants l :
  List.map Py.lower_char l = list_ascii_of_string "all" ->
  In (string_of_list_ascii l)
     ["all"; "alL"; "aLl"; "aLL"; "All"; "AlL"; "ALl"; "ALL"].
Proof.
  destruct l as [|c1 [|c2 [|c3 [|? ?]]]]; try discriminate.
  cbn. intros H. injection H as H1 H2 H3.
  assert (c1 = "a" \/ c1 = "A")%char as [-> | ->]
    by (destruct c1 as [[] [] [] [] [] [] [] []]; try discriminate; auto);
  assert (c2 = "l" \/ c2 = "L")%char as [-> | ->]
    by (destruct c2 as [[] [] [] [] [] [] [] []]; try discriminate; auto);
  assert (c3 = "l" \/ c3 = "L")%char as [-> | ->]
    by (destruct c3 as [[] [] [] [] [] [] [] []]; try discriminate; auto);
  tauto.
Qed.


(** A selection passes the ['all'] test exactly when it spells "all". *)
Lemma all_test_spells s : Py.strip (Py.lower s) = "all" -> spells_all s.
Proof.
  unfold Py.strip, Py.lower. intros H.
  apply (f_equal list_ascii_of_string) in H.
  rewrite !list_ascii_of_string_of_list_ascii, strip_lower in H.
  destruct (strip_split (list_ascii_of_string s)) as (pre & post & Hs & Hpre & Hpost).
  exists (string_of_list_ascii pre),
         (string_of_list_ascii (Py.strip_chars (list_ascii_of_string s))),
         (string_of_list_ascii post).
  unfold blank_str. rewrite !list_ascii_of_string_of_list_ascii.
  split_and!; [|done|done|by apply lower_all_variants].
  apply chars_inj. by rewrite !chars_app, !list_ascii_of_string_of_list_ascii.
Qed.


(** ** Selecting features *)

Lemma run_index_of_token tok w :
  index_of_token tok w =
  match Py.int tok with
  | Some n => Return (n - 1) w
  | None => Raise (Exn ValueError ("invalid literal for int() with base 10: '"
                                   +:+ Py.strip tok +:+ "'")) w
  end.
Proof. unfold index_of_token. rewrite int_strip. by destruct (Py.int tok). Qed.

Lemma tokens_outcome toks w :
  (exists ns, Forall2 (fun tok n => Py.int tok = Some n) toks ns /\
     list_comp index_of_token toks w = Return (List.map (fun n => n - 1) ns) w) \/
  (Exists (fun tok => Py.int tok = None) toks /\
     exists msg, list_comp index_of_token toks w = Raise (Exn ValueError msg) w).
Proof.
  induction toks as [|tok toks IH]; cbn [list_comp].
  { left. exists []. by split; [constructor|]. }
  msimpl. rewrite run_index_of_token.
  destruct (Py.int tok) as [n|] eqn:Hn; msimpl.
  - destruct IH as [(ns & Hns & ->)|(Hex & msg & ->)]; cbn beta iota; msimpl.
    + left. exists (n :: ns). by split; [constructor|].
    + right. split; [by apply Exists_cons_tl | by exists msg].
  - right. split; [by apply Exists_cons_hd | by eexists].
Qed.

Lemma validate_outcome (features : list string) idxs w :
  let check := fun (_ : unit) idx =>
    if (idx <? 0) || (Py.len features <=? idx) then
      raise (Exn ValueError
               ("Invalid feature number: " +:+ Py.str_of_int (idx + 1)
                +:+ ". Valid range: 1-" +:+ Py.str_of_int (Py.len features)))
    else mret tt in
  (Forall (fun i => 0 <= i < Py.len features) idxs /\
     for_ idxs check tt w = Return tt w) \/
  (Exists (fun i => ~ 0 <= i < Py.len features) idxs /\
     exists msg, for_ idxs check tt w = Raise (Exn ValueError msg) w).
Proof.
  intros check. induction idxs as [|i idxs IH]; cbn [for_].
  { left. by split; [constructor|]. }
  msimpl. unfold check at 1 3.
  destruct (Z.ltb_spec i 0); cbn [orb]; [|destruct (Z.leb_spec (Py.len features) i)];
    msimpl; try (right; split; [apply Exists_cons_hd; lia | by eexists]).
  destruct IH as [[Hall ->]|(Hex & msg & ->)].
  - left. split; [constructor; [lia | done] | done].
  - right. split; [by apply Exists_cons_tl | by exists msg].
Qed.

Lemma getitem_in_range {A} (l : list A) i :
  0 <= i < Py.len l -> exists x, Py.getitem l i = Some x /\ l !! Z.to_nat i = Some x.
Proof.
  intros Hi. unfold Py.getitem. destruct (Z.leb_spec 0 i); [|lia].
  destruct (lookup_lt_is_Some_2 l (Z.to_nat i)) as [x Hx]; [unfold Py.len in Hi; lia|].
  by exists x.
Qed.

Lemma pick_outcome (features : list string) idxs w :
  Forall (fun i => 0 <= i < Py.len features) idxs ->
  exists chosen,
    list_comp (fun i => match Py.getitem features i with
                        | Some f => mret f
                        | None => raise (Exn IndexError "list index out of range")
                        end) idxs w = Return chosen w /\
    Forall2 (fun i f => features !! Z.to_nat i = Some f) idxs chosen.
Proof.
  induction 1 as [|i idxs Hi _ (chosen & IH & Hch)]; cbn [list_comp].
  { exists []. by split; [|constructor]. }
  destruct (getitem_in_range features i Hi) as (f & -> & Hf).
  msimpl. rewrite IH. msimpl. exists (f :: chosen). by split; [|constructor].
Qed.

(** C8: a selection that is "all" up to letter case and surrounding
    white space returns the whole feature list, in its original order. *)
Theorem selection_all features selected rest w :
  stdin w = selected :: rest ->
  spells_all selected ->
  get_user_feature_selection features w
  = Return features (prompted selection_prompt rest w).
Proof.
  intros Hin Hall. unfold get_user_feature_selection.
  msimpl. rewrite (run_input _ _ _ _ Hin).
  by rewrite (spells_all_test _ Hall).
Qed.

Lemma selection_all_witness :
  get_user_feature_selection ["auth"; "logging"] (typing ["  ALl "; "out"])
  = Return ["auth"; "logging"]
           (prompted selection_prompt ["out"] (typing ["  ALl "; "out"])).
Proof.
  apply (selection_all _ "  ALl " ["out"]); [reflexivity|].
  exists "  ", "ALl", " ".
  split_and!; [reflexivity | repeat constructor.. | cbn; tauto].
Defined.




(** C3: when the selection is not "all" and some comma-separated token
    is no integer or is outside [1, len(features)], the selection returns
    the empty list (and prints the diagnostic); no part of the selection
    is returned. *)
Theorem selection_rejected features selected rest w :
  stdin w = selected :: rest ->
  ~ spells_all selected ->
  Exists (bad_token features) (Py.split "," selected) ->
  exists diagnostic,
    get_user_feature_selection features w
    = Return [] (set_stdout
                   (stdout w ++ [selection_prompt;
                                 "Error: Invalid input - " +:+ diagnostic;
                                 "Please enter comma-separated numbers or 'all'"])
                   (set_stdin rest w)).
Proof.
  intros Hin Hnall Hbad. unfold get_user_feature_selection.
  msimpl. rewrite (run_input _ _ _ _ Hin).
  destruct (String.eqb_spec (Py.strip (Py.lower selected)) "all") as [Hall|_].
  { by apply all_test_spells in Hall. }
  rewrite run_try_except. msimpl. fold selection_prompt.
  destruct (tokens_outcome (Py.split "," selected) (prompted selection_prompt rest w))
    as [(ns & Hns & ->)|(_ & msg & ->)]; cbn beta iota.
  2:{ exists msg. cbn. msimpl. wsimpl. by rewrite <- !app_assoc. }
  msimpl.
  destruct (validate_outcome features (List.map (fun n => n - 1) ns)
              (prompted selection_prompt rest w)) as [[Hall _]|(_ & msg & Hval)].
  { exfalso. apply Exists_exists in Hbad as (tok & Htok & Hbad).
    apply list_elem_of_lookup in Htok as [i Hi].
    destruct (Forall2_lookup_l _ _ _ _ _ Hns Hi) as (n & Hn & Hint).
    unfold bad_token in Hbad. rewrite Hint in Hbad.
    rewrite Forall_forall in Hall.
    assert (n - 1 ∈ List.map (fun n => n - 1) ns) as Hin'.
    { apply list_elem_of_fmap. exists n. split; [done|]. by eapply list_elem_of_lookup_2. }
    specialize (Hall _ Hin'). cbn in Hall. lia. }
  cbn zeta in Hval. rewrite Hval. cbn beta iota.
  exists msg. cbn. msimpl. wsimpl. by rewrite <- !app_assoc.
Qed.

Lemma selection_rejected_witness :
  exists diagnostic,
    get_user_feature_selection ["auth"; "logging"] (typing ["1, x"; "out"])
    = Return [] (set_stdout
                   (stdout (typing ["1, x"; "out"])
                    ++ [selection_prompt;
                        "Error: Invalid input - " +:+ diagnostic;
                        "Please enter comma-separated numbers or 'all'"])
                   (set_stdin ["out"] (typing ["1, x"; "out"]))).
Proof.
  apply (selection_rejected _ "1, x" ["out"]); [reflexivity | |].
  - intros Hall. apply spells_all_test in Hall. vm_compute in Hall. discriminate.
  - apply Exists_cons_tl, Exists_cons_hd. exact I.
Defined.

(** An index past the end rejects the whole selection, the valid tokens
    before it included; so does a zero or a negative number. *)
Example selection_rejected_examples :
  List.map (fun selected =>
              match get_user_feature_selection ["auth"; "logging"]
                      (typing [selected]) with
              | Return chosen _ => Some chosen
              | _ => None
              end) ["1,3"; "0"; "-1"; "1,,2"; ""; "2,1"; "1, 1"; "ALL"; " 2 "]
  = [Some []; Some []; Some []; Some []; Some [];
     Some ["logging"; "auth"]; Some ["auth"; "auth"];
     Some ["auth"; "logging"]; Some ["logging"]].
Proof. vm_compute. reflexivity. Qed.

(** ** Start-up *)

(** C1 fails on the code: with no [GITHUB_API_TOKEN] in the environment
    the module-level [env.str] raises before [main] is called, so
    nothing is printed and no request is sent. *)
Theorem script_without_token env remote fuel w :
  env !! "GITHUB_API_TOKEN" = None ->
  exists msg, script env remote fuel w = Raise (Exn EnvError msg) w.
Proof.
  intros Henv. unfold script, load_constants, GITHUB_TOKEN, env_str.
  rewrite Henv. by eexists.
Qed.

Lemma script_without_token_witness :
  exists msg,
    script ∅ (fun _ => NetworkFault "unreachable") 1 (typing ["all"; ""])
    = Raise (Exn EnvError msg) (typing ["all"; ""]).
Proof. apply script_without_token. reflexivity. Defined.

(** With the variable set, the token is optional in the way C1 says: an
    empty token gives requests without headers, any other token the
    [Authorization] header. *)
Lemma script_with_empty_token remote fuel w :
  script {["GITHUB_API_TOKEN" := ""]} remote fuel w = main remote None fuel w.
Proof. reflexivity. Qed.

Lemma script_with_token token remote fuel w :
  token <> "" ->
  script {["GITHUB_API_TOKEN" := token]} remote fuel w
  = main remote (Some [("Authorization", "token " +:+ token)]) fuel w.
Proof.
  intros Hne. unfold script, load_constants, GITHUB_TOKEN, env_str.
  rewrite lookup_singleton_eq. by destruct token.
Qed.

(** ** Frame conditions *)

Section Respects.
Context (R : World -> World -> Prop) (E : exn -> bool).
Hypothesis R_refl : forall w, R w w.
Hypothesis R_trans : forall w1 w2 w3, R w1 w2 -> R w2 w3 -> R w1 w3.

Lemma respects_ret {A} (a : A) : respects R E (mret a).
Proof. intros w. apply R_refl. Qed.

Lemma respects_diverge {A} : respects R E (diverge (A := A)).
Proof. by intros w. Qed.

Lemma respects_raise {A} e : E e = true -> respects R E (raise (A := A) e).
Proof. intros He w. split; [apply R_refl | done]. Qed.

Lemma respects_bind {A B} (m : M A) (k : A -> M B) :
  respects R E m -> (forall a, respects R E (k a)) -> respects R E (m ≫= k).
Proof.
  intros Hm Hk w. rewrite run_bind. specialize (Hm w).
  destruct (m w) as [a w'| |]; [|done..].
  specialize (Hk a w'). destruct (k a w') as [b w''|e w''|]; [| |done].
  - by eapply R_trans.
  - destruct Hk. split; [by eapply R_trans | done].
Qed.

Lemma respects_for {A B} (l : list A) (body : B -> A -> M B) acc :
  (forall acc x, respects R E (body acc x)) -> respects R E (for_ l body acc).
Proof.
  intros Hbody. revert acc. induction l as [|x l IH]; intros acc; cbn [for_].
  - apply respects_ret.
  - apply respects_bind; [apply Hbody | apply IH].
Qed.

Lemma respects_list_comp {A B} (f : A -> M B) l :
  (forall x, respects R E (f x)) -> respects R E (list_comp f l).
Proof.
  intros Hf. induction l as [|x l IH]; cbn [list_comp].
  - apply respects_ret.
  - apply respects_bind; [apply Hf|]. intros y.
    apply respects_bind; [apply IH|]. intros ys. apply respects_ret.
Qed.

(** A [try] whose clauses respect the frame: what the body raises
    and no clause handles has to be allowed too. *)
Lemma respects_try {A} (E0 : exn -> bool) (body : M A) clauses :
  respects R E0 body ->
  Forall (fun c => forall e, respects R E (c.2 e)) clauses ->
  (forall e, E0 e = true -> List.find (fun c => c.1 e) clauses = None ->
             E e = true) ->
  respects R E (try_except body clauses).
Proof.
  intros Hbody Hcl Hrest w. rewrite run_try_except. specialize (Hbody w).
  destruct (body w) as [a w'|e w'|]; [done| |done].
  destruct Hbody as [Hw He].
  destruct (List.find _ clauses) as [c|] eqn:Hfind.
  - apply find_some in Hfind as [Hin _].
    rewrite Forall_forall in Hcl. apply list_elem_of_In in Hin.
    specialize (Hcl c Hin e w').
    destruct (c.2 e w') as [b w''|e' w''|]; [| |done].
    + by eapply R_trans.
    + destruct Hcl. split; [by eapply R_trans | done].
  - split; [done | by apply Hrest].
Qed.
End Respects.

Lemma respects_weaken {A} (R R' : World -> World -> Prop) (E E' : exn -> bool)
    (m : M A) :
  (forall w w', R w w' -> R' w w') -> (forall e, E e = true -> E' e = true) ->
  respects R E m -> respects R' E' m.
Proof.
  intros HR HE Hm w. specialize (Hm w). destruct (m w) as [a w'|e w'|]; [| |done].
  - by apply HR.
  - destruct Hm. split; [by apply HR | by apply HE].
Qed.

(** ** Results that do not depend on the world *)


Lemma blind_raise {A} e : world_blind (raise (A := A) e).
Proof. by intros w1 w2. Qed.




(** ** Listing the files of a feature *)

Lemma only_listed_refl w : only_listed w w.
Proof.
  split_and!; [done..|]. exists []. split; [by rewrite app_nil_r | constructor].
Qed.

Lemma only_listed_trans w1 w2 w3 :
  only_listed w1 w2 -> only_listed w2 w3 -> only_listed w1 w3.
Proof.
  intros (? & ? & ? & n1 & Hs1 & Hn1) (? & ? & ? & n2 & Hs2 & Hn2).
  split_and!; [congruence..|]. exists (n1 ++ n2). split.
  - by rewrite Hs2, Hs1, app_assoc.
  - by apply Forall_app.
Qed.

Section Listing.
Context (remote : Request -> Reply) (HEADERS : option (list (string * string))).

Lemma run_requests_get u w :
  requests_get remote HEADERS u w =
  let rq := {| req_url := u; req_headers := HEADERS |} in
  match remote rq with
  | Answer r => Return r (set_sent (sent w ++ [rq]) w)
  | NetworkFault msg => Raise (Exn ConnectionError msg) (set_sent (sent w ++ [rq]) w)
  end.
Proof. reflexivity. Qed.

Lemma run_raise_for_status r w :
  raise_for_status r w =
  if (400 <=? status_code r) && (status_code r <? 600) then
    Raise (Exn HTTPError
             (Py.str_of_int (status_code r)
              +:+ (if status_code r <? 500 then " Client Error: " else " Server Error: ")
              +:+ reason r +:+ " for url: " +:+ url r)) w
  else Return tt w.
Proof.
  unfold raise_for_status.
  destruct (Z.leb_spec 400 (status_code r)), (Z.ltb_spec (status_code r) 500),
    (Z.leb_spec 500 (status_code r)), (Z.ltb_spec (status_code r) 600);
    cbn; try done; lia.
Qed.

Lemma respects_requests_get_listing feature :
  respects only_listed is_RequestException
    (requests_get remote HEADERS (API_FEATURE_CONTENT_URL feature)).
Proof.
  intros w. rewrite run_requests_get. cbn zeta.
  assert (only_listed w (set_sent (sent w ++
            [{| req_url := API_FEATURE_CONTENT_URL feature; req_headers := HEADERS |}]) w)).
  { split_and!; [done..|]. eexists. split; [done|]. by repeat constructor. }
  by destruct (remote _).
Qed.

Lemma respects_raise_for_status R r :
  (forall w, R w w) -> respects R is_RequestException (raise_for_status r).
Proof.
  intros HR w. rewrite run_raise_for_status. by destruct (_ && _).
Qed.

Lemma respects_fetch_feature_files fuel feature :
  respects only_listed is_RequestException
    (fetch_feature_files remote HEADERS fuel feature).
Proof.
  revert feature. induction fuel as [|fuel IH]; intros feature; cbn [fetch_feature_files].
  { apply respects_diverge. }
  apply respects_bind; [apply only_listed_trans | apply respects_requests_get_listing |].
  intros r. apply respects_bind; [apply only_listed_trans | apply respects_raise_for_status, only_listed_refl |].
  intros _. apply respects_for; [apply only_listed_refl | apply only_listed_trans |].
  intros files item. unfold fetch_item.
  destruct (String.eqb (type item) "dir").
  - apply respects_bind; [apply only_listed_trans | apply IH |].
    intros sub. apply respects_ret, only_listed_refl.
  - apply respects_ret, only_listed_refl.
Qed.



End Listing.

Section ListingTree.
Context (remote : Request -> Reply) (HEADERS : option (list (string * string))).

Lemma fetch_item_other recurse feature_name files item :
  file_or_dir item = false ->
  fetch_item recurse feature_name files item = mret files.
Proof.
  unfold file_or_dir, fetch_item. intros H.
  apply orb_false_iff in H as [-> ->]. done.
Qed.

Lemma for_fetch_item_filter recurse feature_name data files w :
  for_ data (fetch_item recurse feature_name) files w
  = for_ (List.filter file_or_dir data) (fetch_item recurse feature_name) files w.
Proof.
  revert files w. induction data as [|item data IH]; intros files w; [done|].
  cbn [for_ List.filter]. destruct (file_or_dir item) eqn:Hitem.
  - cbn [for_]. rewrite !run_bind.
    destruct (fetch_item recurse feature_name files item w); [apply IH|done..].
  - rewrite run_bind, fetch_item_other, run_ret by done. apply IH.
Qed.

(** C10: an entry whose type is neither ["file"] nor ["dir"] leaves
    the list of files as it is and calls nothing, whatever the
    recursive call would do; so a listing gives the same result, and
    sends the same requests, as the listing with these entries
    removed. *)
Theorem fetch_feature_files_skips_other_types fuel feature_name w :
  (forall recurse files item,
      file_or_dir item = false ->
      fetch_item recurse feature_name files item = mret files) /\
  fetch_feature_files remote HEADERS (S fuel) feature_name w
  = (response ← requests_get remote HEADERS (API_FEATURE_CONTENT_URL feature_name);
     _ ← raise_for_status response;
     for_ (List.filter file_or_dir (json response))
          (fetch_item (fetch_feature_files remote HEADERS fuel) feature_name) []) w.
Proof.
  split; [intros; by apply fetch_item_other|].
  cbn [fetch_feature_files]. rewrite !run_bind.
  destruct (requests_get _ _ _ w) as [r w'| |]; [|done..].
  rewrite !run_bind. destruct (raise_for_status r w') as [[] w''| |]; [|done..].
  apply for_fetch_item_filter.
Qed.

Lemma run_listing path items w :
  lists remote HEADERS path items ->
  exists r,
    json r = items /\
    requests_get remote HEADERS (API_FEATURE_CONTENT_URL path) w
    = Return r (set_sent (sent w ++ [{| req_url := API_FEATURE_CONTENT_URL path;
                                        req_headers := HEADERS |}]) w) /\
    forall w', raise_for_status r w' = Return tt w'.
Proof.
  intros (r & Hr & Hstatus & Hjson). exists r. split_and!; [done| |].
  - rewrite run_requests_get. cbn zeta. by rewrite Hr.
  - intros w'. rewrite run_raise_for_status.
    destruct (Z.leb_spec 400 (status_code r)), (Z.ltb_spec (status_code r) 600);
      cbn; try done; lia.
Qed.

(** C4: when the remote serves a finite tree of entries at
    [feature_name], [fetch_feature_files] returns, given fuel for the
    depth of the tree, the relative paths of the entries in listing
    order: the name of a file, and for a directory the paths found by
    the call on [feature_name/entry_name], each prefixed with
    [entry_name/].  Only the log of requests grows. *)
Theorem fetch_feature_files_relative_paths depth :
  forall fuel feature_name entries w,
  serves remote HEADERS depth feature_name entries ->
  (depth <= fuel)%nat ->
  exists new,
    fetch_feature_files remote HEADERS fuel feature_name w
    = Return (List.flat_map relative_paths entries) (set_sent (sent w ++ new) w).
Proof.
  induction depth as [|depth IH]; intros fuel feature_name entries w Hserves Hfuel;
    [done|].
  destruct fuel as [|fuel]; [lia|]. destruct Hserves as [Hlists Hsub].
  cbn [fetch_feature_files]. rewrite run_bind.
  destruct (run_listing _ _ w Hlists) as (r & Hjson & -> & Hok).
  cbn beta iota. rewrite run_bind, Hok. cbn beta iota zeta. rewrite Hjson.
  clear Hlists Hjson Hok r.
  set (w1 := set_sent _ w).
  assert (exists new, w1 = set_sent (sent w ++ new) w) as Hw1 by (by eexists).
  assert (forall acc, exists new,
            for_ (List.map entry_item entries)
                 (fetch_item (fetch_feature_files remote HEADERS fuel) feature_name) acc w1
            = Return (acc ++ List.flat_map relative_paths entries)
                     (set_sent (sent w ++ new) w)) as Hloop.
  2:{ destruct (Hloop []) as (new & ->). by exists new. }
  clearbody w1. revert w1 Hw1.
  induction entries as [|[n t children] entries IHe]; intros w1 (new & ->) acc.
  { exists new. cbn. by rewrite app_nil_r. }
  apply Forall_cons in Hsub as [He Hsub].
  cbn [List.map entry_item for_ List.flat_map relative_paths].
  rewrite run_bind. unfold fetch_item at 1. cbn [type name].
  destruct (String.eqb_spec t "file") as [->|Hfile].
  - change (String.eqb "file" "dir") with false. cbn beta iota. rewrite run_ret.
    destruct (IHe Hsub _ (ex_intro _ new eq_refl) (acc ++ [n])) as (new' & ->).
    exists new'. by rewrite <- app_assoc.
  - destruct (String.eqb_spec t "dir") as [->|Hdir].
    + rewrite run_bind.
      destruct (IH fuel (feature_name +:+ "/" +:+ n) children
                  (set_sent (sent w ++ new) w) (He eq_refl) ltac:(lia)) as (new1 & ->).
      cbn beta iota. rewrite run_ret. wsimpl.
      destruct (IHe Hsub _ (ex_intro _ (new ++ new1) eq_refl)
                  (acc ++ List.map (fun sub_file => n +:+ "/" +:+ sub_file)
                                   (List.flat_map relative_paths children)))
        as (new' & Hrun).
      unfold set_sent in Hrun. cbn [fs stdin stdout sent] in Hrun.
      rewrite (app_assoc (sent w)) in Hrun. rewrite Hrun.
      exists new'. by rewrite <- app_assoc.
    + rewrite run_ret.
      destruct (IHe Hsub _ (ex_intro _ new eq_refl) acc) as (new' & ->).
      exists new'. done.
Qed.
End ListingTree.

(** ** The file system *)


Lemma makedirs_from_raises f above todo e :
  makedirs_from f above todo = inl e -> exn_cls e = OSError.
Proof.
  revert f above. induction todo as [|c rest IH]; intros f above; cbn; [done|].
  destruct (f !! (above ++ [c])) as [[|data]|]; [apply IH | | apply IH].
  by intros [= <-].
Qed.

(** What is on disk stays when directories are made, and only
    directories are added. *)
Lemma makedirs_from_grows f above todo f' :
  makedirs_from f above todo = inr f' ->
  (forall q n, f !! q = Some n -> f' !! q = Some n) /\
  (forall q data, f' !! q = Some (File data) -> f !! q = Some (File data)).
Proof.
  revert f above. induction todo as [|c rest IH]; intros f above; cbn.
  { by intros [= <-]. }
  destruct (f !! (above ++ [c])) as [[|data]|] eqn:Hp; [apply IH | done |].
  intros Hrun. apply IH in Hrun as [Hkeep Hfiles]. split.
  - intros q n Hq. apply Hkeep. rewrite lookup_insert_ne; [done|]. congruence.
  - intros q data Hq. apply Hfiles in Hq.
    rewrite lookup_insert in Hq. by case_decide.
Qed.

Lemma resolves_mono f f' above todo :
  (forall q n, f !! q = Some n -> f' !! q = Some n) ->
  resolves f above todo = true -> resolves f' above todo = true.
Proof.
  intros Hkeep. revert above. induction todo as [|c rest IH]; intros above; cbn; [done|].
  destruct (f !! (above ++ [c])) as [[|data]|] eqn:Hp; [|done..].
  rewrite (Hkeep _ _ Hp). apply IH.
Qed.

Lemma makedirs_from_made f above todo f' :
  makedirs_from f above todo = inr f' -> resolves f' above todo = true.
Proof.
  revert f above. induction todo as [|c rest IH]; intros f above; cbn; [done|].
  destruct (f !! (above ++ [c])) as [[|data]|] eqn:Hp; [| done |].
  - intros Hrun. destruct (makedirs_from_grows _ _ _ _ Hrun) as [Hkeep _].
    rewrite (Hkeep _ _ Hp). by eapply IH.
  - intros Hrun. destruct (makedirs_from_grows _ _ _ _ Hrun) as [Hkeep _].
    rewrite (Hkeep (above ++ [c]) Dir) by apply lookup_insert_eq. by eapply IH.
Qed.

Lemma run_makedirs p w :
  makedirs p w = match makedirs_from (fs w) [] p with
                 | inr f => Return tt (set_fs f w)
                 | inl e => Raise e w
                 end.
Proof. reflexivity. Qed.

Lemma run_open_wb_write p data w :
  open_wb_write p data w =
  if is_dir (fs w) p then
    Raise (Exn OSError ("[Errno 21] Is a directory: '" +:+ Path_str p +:+ "'")) w
  else if is_dir (fs w) (parent p) then
    Return tt (set_fs (<[p := File data]> (fs w)) w)
  else
    Raise (Exn OSError
             ("[Errno 2] No such file or directory: '" +:+ Path_str p +:+ "'")) w.
Proof. reflexivity. Qed.

(** ** Downloading one file *)

Section Download.
Context (remote : Request -> Reply) (HEADERS : option (list (string * string))).

(** The outcomes of [download_feature_file]. *)
Lemma run_download_feature_file u path w :
  let rq := {| req_url := u; req_headers := HEADERS |} in
  let w1 := set_sent (sent w ++ [rq]) w in
  download_feature_file remote HEADERS u path w =
  match remote rq with
  | NetworkFault msg => Raise (Exn ConnectionError msg) w1
  | Answer r =>
      match raise_for_status r w1 with
      | Return _ _ =>
          match open_wb_write path (content r) w1 with
          | Return _ w2 =>
              Return tt (set_stdout (stdout w2 ++ ["File successfully downloaded: "
                                                   +:+ Path_str path]) w2)
          | Raise e w2 => Raise e w2
          | Diverge => Diverge
          end
      | Raise e w2 => Raise e w2
      | Diverge => Diverge
      end
  end.
Proof.
  cbn zeta. unfold download_feature_file. rewrite run_bind, run_requests_get. cbn zeta.
  destruct (remote _) as [r|msg]; [|done]. rewrite run_bind.
  rewrite run_raise_for_status. destruct (_ && _); [done|].
  rewrite run_bind. by destruct (open_wb_write _ _ _).
Qed.


(** A download that succeeds leaves exactly the body of the response in
    the file. *)
Lemma download_feature_file_round_trip u path w w' :
  download_feature_file remote HEADERS u path w = Return tt w' ->
  exists r,
    remote {| req_url := u; req_headers := HEADERS |} = Answer r /\
    read_bytes (fs w') path = Some (content r) /\
    is_dir (fs w) (parent path) = true.
Proof.
  rewrite run_download_feature_file. cbn zeta.
  destruct (remote _) as [r|msg]; [|done]. rewrite run_raise_for_status.
  destruct (_ && _); [done|]. rewrite run_open_wb_write. wsimpl.
  destruct (is_dir (fs w) path); [done|].
  destruct (is_dir (fs w) (parent path)); [|done].
  intros [= <-]. exists r. split_and!; [done| |done].
  unfold read_bytes. wsimpl. by rewrite lookup_insert_eq.
Qed.
End Download.

(** ** The target directory *)



Lemma target_of_nonempty raw : target_of raw <> "".
Proof. unfold target_of. by destruct (Py.strip raw). Qed.

Lemma run_setup_target_directory raw rest w :
  stdin w = raw :: rest ->
  setup_target_directory w =
  match makedirs_from (fs w) [] (Path (target_of raw)) with
  | inr f => Return (target_of raw) (directory_ready raw f rest w)
  | inl e => Return "" (directory_failed raw e rest w)
  end.
Proof.
  intros Hin. unfold setup_target_directory. rewrite run_bind.
  rewrite (run_input _ _ _ _ Hin). cbn beta iota zeta. fold (target_of raw).
  rewrite run_try_except, run_bind, run_makedirs. wsimpl.
  destruct (makedirs_from _ _ _) as [e|f] eqn:Hmk; cbn beta iota.
  - apply makedirs_from_raises in Hmk. unfold is_RequestException, is_OSError.
    cbn [List.find fst snd]. unfold is_OSError. rewrite Hmk. cbn beta iota.
    cbn [snd]. msimpl. unfold directory_failed, directory_prompt. wsimpl.
    by rewrite <- app_assoc.
  - msimpl. unfold directory_ready, directory_prompt. wsimpl.
    by rewrite <- app_assoc.
Qed.

Section Orchestrator.
Context (remote : Request -> Reply) (HEADERS : option (list (string * string))).

Lemma nothing_downloaded_same w w' :
  fs w' = fs w -> sent w' = sent w -> nothing_downloaded w w'.
Proof.
  intros Hfs Hsent. split; [done|]. exists [].
  split; [by rewrite app_nil_r | constructor].
Qed.

Lemma nothing_downloaded_refl w : nothing_downloaded w w.
Proof. by apply nothing_downloaded_same. Qed.

Lemma nothing_downloaded_trans w1 w2 w3 :
  nothing_downloaded w1 w2 -> nothing_downloaded w2 w3 -> nothing_downloaded w1 w3.
Proof.
  intros (? & n1 & Hs1 & Hn1) (? & n2 & Hs2 & Hn2).
  split; [congruence|]. exists (n1 ++ n2). split.
  - by rewrite Hs2, Hs1, app_assoc.
  - by apply Forall_app.
Qed.

Lemma only_listed_nothing_downloaded w w' :
  only_listed w w' -> nothing_downloaded w w'.
Proof. intros (? & ? & ? & ?). by split. Qed.

Lemma quiet_print s : respects nothing_downloaded any_exn (print s).
Proof. intros w. rewrite run_print. by apply nothing_downloaded_same. Qed.

Lemma quiet_input prompt : respects nothing_downloaded any_exn (input prompt).
Proof.
  intros w. unfold input. wsimpl.
  destruct (stdin w); [split; [|done]|]; by apply nothing_downloaded_same.
Qed.

Ltac quiet :=
  repeat first
    [ apply quiet_print | apply quiet_input
    | apply respects_ret; apply nothing_downloaded_refl
    | apply respects_raise; [apply nothing_downloaded_refl | reflexivity]
    | apply respects_bind; [apply nothing_downloaded_trans | | intros ?]
    | apply respects_for;
      [apply nothing_downloaded_refl | apply nothing_downloaded_trans | intros ? ?]
    | apply respects_list_comp;
      [apply nothing_downloaded_refl | apply nothing_downloaded_trans | intros ?]
    | apply (respects_try _ _ nothing_downloaded_trans any_exn);
      [ | repeat (apply List.Forall_cons; [intros ?; cbn [snd]|]);
          try apply List.Forall_nil
        | done ]
    | match goal with
      | |- respects _ _ (if ?b then _ else _) => destruct b
      | |- respects _ _ (match ?x with _ => _ end) => destruct x
      end ].

Lemma quiet_get_user_feature_selection features :
  respects nothing_downloaded any_exn (get_user_feature_selection features).
Proof.
  unfold get_user_feature_selection. quiet.
  unfold index_of_token. quiet.
Qed.

Lemma quiet_fetch_feature_files fuel feature :
  respects nothing_downloaded any_exn
    (fetch_feature_files remote HEADERS fuel feature).
Proof.
  eapply respects_weaken; [apply only_listed_nothing_downloaded | |
                           apply respects_fetch_feature_files]. done.
Qed.

Lemma quiet_fetch_available_features :
  respects nothing_downloaded any_exn (fetch_available_features remote HEADERS).
Proof.
  unfold fetch_available_features. quiet.
  - intros w. rewrite run_requests_get. cbn zeta.
    assert (nothing_downloaded w (set_sent (sent w ++
              [{| req_url := API_URL; req_headers := HEADERS |}]) w)).
    { split; [done|]. eexists. split; [done|]. by repeat constructor. }
    by destruct (remote _).
  - eapply respects_weaken; [| |apply respects_raise_for_status]; eauto using nothing_downloaded_refl.
Qed.

Lemma quiet_display_available_features fuel features :
  respects nothing_downloaded any_exn
    (display_available_features remote HEADERS fuel features).
Proof.
  unfold display_available_features. quiet. apply quiet_fetch_feature_files.
Qed.

Lemma quiet_selection_phase fuel :
  respects nothing_downloaded any_exn (selection_phase remote HEADERS fuel).
Proof.
  unfold selection_phase.
  apply respects_bind; [apply nothing_downloaded_trans | apply quiet_print |].
  intros _. apply respects_bind;
    [apply nothing_downloaded_trans | apply quiet_fetch_available_features |].
  intros features. apply respects_bind;
    [apply nothing_downloaded_trans | apply quiet_display_available_features |].
  intros _. apply quiet_get_user_feature_selection.
Qed.

End Orchestrator.

(** ** Downloading the chosen features *)

Section Downloads.
Context (remote : Request -> Reply) (HEADERS : option (list (string * string))).

Lemma download_feature_files_steps fuel chosen target_dir :
  download_feature_files remote HEADERS fuel chosen target_dir
  = for_ chosen (feature_step remote HEADERS fuel target_dir) (0, 0).
Proof. reflexivity. Qed.

(** One file: the total grows by one, and exactly one notice is printed,
    of success with the count of successes grown by one, or of failure
    with the count as it was. *)
Lemma file_step_outcome target_dir feature t s file w :
  exists s' w' line,
    file_step remote HEADERS target_dir feature (t, s) file w
    = Return (t + 1, s') w' /\
    stdout w' = stdout w ++ [line] /\
    (s' = s + 1 /\ is_success_line line = true /\ is_failure_line line = false \/
     s' = s /\ is_success_line line = false /\ is_failure_line line = true).
Proof.
  unfold file_step. cbn zeta. rewrite run_bind, run_try_except, run_bind, run_makedirs.
  destruct (makedirs_from _ _ _) as [e|f] eqn:Hmk; cbn beta iota.
  { apply makedirs_from_raises in Hmk. destruct e as [cls msg]. cbn in Hmk. subst cls.
    cbn [List.find fst snd is_RequestException is_OSError exn_cls]. msimpl.
    do 3 eexists. split; [reflexivity|]. split; [reflexivity|]. right. by split_and!. }
  rewrite run_bind, run_download_feature_file. cbn zeta.
  destruct (remote _) as [r|msg]; cbn beta iota.
  2:{ cbn [List.find fst snd is_RequestException is_OSError exn_cls]. msimpl.
      do 3 eexists. split; [reflexivity|]. split; [reflexivity|]. right. by split_and!. }
  rewrite run_raise_for_status. destruct (_ && _); cbn beta iota.
  { cbn [List.find fst snd is_RequestException is_OSError exn_cls]. msimpl.
    do 3 eexists. split; [reflexivity|]. split; [reflexivity|]. right. by split_and!. }
  rewrite run_open_wb_write. destruct (is_dir _ _); cbn beta iota.
  { cbn [List.find fst snd is_RequestException is_OSError exn_cls]. msimpl.
    do 3 eexists. split; [reflexivity|]. split; [reflexivity|]. right. by split_and!. }
  destruct (is_dir _ _); cbn beta iota.
  - msimpl. do 3 eexists. split; [reflexivity|]. split; [reflexivity|]. left. by split_and!.
  - cbn [List.find fst snd is_RequestException is_OSError exn_cls]. msimpl.
    do 3 eexists. split; [reflexivity|]. split; [reflexivity|]. right. by split_and!.
Qed.

Lemma reported_successes_app a b :
  reported_successes (a ++ b) = reported_successes a + reported_successes b.
Proof.
  unfold reported_successes. rewrite List.filter_app, length_app. lia.
Qed.

Lemma reported_failures_app a b :
  reported_failures (a ++ b) = reported_failures a + reported_failures b.
Proof.
  unfold reported_failures. rewrite List.filter_app, length_app. lia.
Qed.

Lemma files_loop_outcome target_dir feature files : forall t s w,
  exists s' w' out,
    for_ files (file_step remote HEADERS target_dir feature) (t, s) w
    = Return (t + Z.of_nat (length files), s') w' /\
    stdout w' = stdout w ++ out /\
    reported_successes out = s' - s /\
    reported_failures out = Z.of_nat (length files) - (s' - s).
Proof.
  induction files as [|file files IH]; intros t s w.
  { exists s, w, []. cbn [for_ length]. rewrite run_ret, app_nil_r, Z.add_0_r.
    change (reported_successes []) with 0. change (reported_failures []) with 0.
    split_and!; [done..| lia | lia]. }
  cbn [for_]. rewrite run_bind.
  destruct (file_step_outcome target_dir feature t s file w)
    as (s1 & w1 & line & -> & Hout1 & Hline).
  cbn beta iota.
  destruct (IH (t + 1) s1 w1) as (s' & w' & out & -> & Hout & Hsucc & Hfail).
  exists s', w', (line :: out). split_and!.
  - f_equal. f_equal. cbn [length]. lia.
  - rewrite Hout, Hout1, <- app_assoc. done.
  - change (line :: out) with ([line] ++ out). rewrite reported_successes_app, Hsucc.
    unfold reported_successes at 1. cbn [List.filter length].
    destruct Hline as [(-> & -> & _)|(-> & -> & _)]; cbn [length]; lia.
  - change (line :: out) with ([line] ++ out). rewrite reported_failures_app, Hfail.
    unfold reported_failures at 1. cbn [List.filter length].
    destruct Hline as [(-> & _ & ->)|(-> & _ & ->)]; cbn [length]; lia.
Qed.




End Downloads.

(** ** The scenario of the specification *)

Lemma fetch_feature_files_relative_paths_witness :
  exists new,
    fetch_feature_files demo_remote None 2 "auth" empty_world
    = Return ["main.py"; "sub/helper.py"]
             (set_sent (sent empty_world ++ new) empty_world).
Proof.
  apply (fetch_feature_files_relative_paths demo_remote None 2 2 "auth" auth_tree);
    [|lia].
  split.
  - eexists. split_and!; [reflexivity | left; cbn; lia | reflexivity].
  - repeat apply List.Forall_cons; try apply List.Forall_nil; try discriminate.
    intros _. split.
    + eexists. split_and!; [reflexivity | left; cbn; lia | reflexivity].
    + repeat apply List.Forall_cons; try apply List.Forall_nil; discriminate.
Defined.

(** The symbolic link of [auth] gives no path, and nothing is requested
    for it: the two listings are the only requests. *)
Example fetch_feature_files_auth :
  fetch_feature_files demo_remote None 2 "auth" empty_world
  = Return ["main.py"; "sub/helper.py"]
      (set_sent [{| req_url := API_FEATURE_CONTENT_URL "auth"; req_headers := None |};
                 {| req_url := API_FEATURE_CONTENT_URL "auth/sub"; req_headers := None |}]
                empty_world).
Proof. vm_compute. reflexivity. Qed.



(** The run of the scenario: four files are attempted, the one that
    fails does not stop the others, and the files of [auth] are on
    disk with the bytes the remote sent. *)
Example download_feature_files_scenario :
  match download_feature_files demo_remote None 3 ["auth"; "logging"] "out"
          empty_world with
  | Return (total, succ) w =>
      total = 4 /\ succ = 3 /\
      read_bytes (fs w) ["out"; "main.py"] = Some [x70; x61; x73; x73; x0a] /\
      read_bytes (fs w) ["out"; "sub"; "helper.py"] = Some [x00; xff] /\
      read_bytes (fs w) ["out"; "log.py"] = None /\
      read_bytes (fs w) ["out"; "fmt.py"] = Some [] /\
      stdout w = [newline +:+ "Processing feature: auth";
                  "File successfully downloaded: out/main.py";
                  "File successfully downloaded: out/sub/helper.py";
                  newline +:+ "Processing feature: logging";
                  "Error downloading log.py: Connection reset by peer";
                  "File successfully downloaded: out/fmt.py"]
  | _ => False
  end.
Proof. vm_compute. by split_and!. Qed.



(** The same run, in full: the message, and no request but listings. *)
Example main_without_directory :
  match main demo_remote None 3
          (set_fs {[ ["out"] := File [] ]} (typing ["1"; "out"])) with
  | Return _ w =>
      fs w = {[ ["out"] := File [] ]} /\
      last (stdout w)
      = Some "Error: Could not create directory 'out': [Errno 17] File exists: 'out'" /\
      List.map is_download (sent w) = [false; false; false; false]
  | _ => False
  end.
Proof. vm_compute. by split_and!. Qed.

(** ** What a successful step leaves on disk *)

Lemma resolves_insert_longer f above todo p n :
  (length (above ++ todo) < length p)%nat ->
  resolves f above todo = true ->
  resolves (<[p := n]> f) above todo = true.
Proof.
  revert above. induction todo as [|c rest IH]; intros above Hlen; cbn; [done|].
  rewrite lookup_insert_ne.
  2:{ intros ->. rewrite !length_app in Hlen. cbn in Hlen. lia. }
  destruct (f !! (above ++ [c])) as [[|data]|]; [|done..].
  apply IH. by rewrite <- app_assoc.
Qed.

Lemma parent_shorter p : p <> [] -> (length (parent p) < length p)%nat.
Proof.
  intros Hp. destruct p as [|x p] using rev_ind; [done|].
  unfold parent. rewrite removelast_last, length_app. cbn. lia.
Qed.

Section Step.
Context (remote : Request -> Reply) (HEADERS : option (list (string * string))).

(** X1: a file counted as a success is on disk, below the directories
    made for it, with exactly the body of the response. *)
Lemma file_step_downloaded target_dir feature t s file w w' :
  file_step remote HEADERS target_dir feature (t, s) file w
  = Return (t + 1, s + 1) w' ->
  exists r,
    remote {| req_url := RAW_URL +:+ "/" +:+ feature +:+ "/" +:+ file;
              req_headers := HEADERS |} = Answer r /\
    read_bytes (fs w') (Path target_dir ++ Path file) = Some (content r) /\
    is_dir (fs w') (parent (Path target_dir ++ Path file)) = true.
Proof.
  unfold file_step. cbn zeta. rewrite run_bind, run_try_except, run_bind, run_makedirs.
  destruct (makedirs_from _ _ _) as [e|f] eqn:Hmk; cbn beta iota.
  { apply makedirs_from_raises in Hmk. destruct e as [cls msg]. cbn in Hmk. subst cls.
    cbn [List.find fst snd is_RequestException is_OSError exn_cls]. msimpl.
    intros [= Hs]. lia. }
  rewrite run_bind, run_download_feature_file. cbn zeta.
  destruct (remote _) as [r|msg]; cbn beta iota.
  2:{ cbn [List.find fst snd is_RequestException is_OSError exn_cls]. msimpl.
      intros [= Hs]. lia. }
  rewrite run_raise_for_status. destruct (_ && _); cbn beta iota.
  { cbn [List.find fst snd is_RequestException is_OSError exn_cls]. msimpl.
    intros [= Hs]. lia. }
  rewrite run_open_wb_write. wsimpl.
  destruct (is_dir f (Path target_dir ++ Path file)) eqn:Hfile; cbn beta iota.
  { cbn [List.find fst snd is_RequestException is_OSError exn_cls]. msimpl.
    intros [= Hs]. lia. }
  destruct (is_dir f (parent _)) eqn:Hparent; cbn beta iota.
  2:{ cbn [List.find fst snd is_RequestException is_OSError exn_cls]. msimpl.
      intros [= Hs]. lia. }
  msimpl. intros [= <-]. exists r. wsimpl. split_and!; [done| |].
  - unfold read_bytes. by rewrite lookup_insert_eq.
  - apply resolves_insert_longer; [|done]. apply parent_shorter.
    intros Hnil. by rewrite Hnil in Hfile.
Qed.
End Step.

Lemma file_step_downloaded_witness :
  exists r,
    demo_remote {| req_url := RAW_URL +:+ "/" +:+ "auth" +:+ "/" +:+ "sub/helper.py";
                   req_headers := None |} = Answer r /\
    read_bytes
      (fs match file_step demo_remote None "out" "auth" (1, 1) "sub/helper.py"
                  empty_world with
          | Return _ w' => w'
          | _ => empty_world
          end)
      (Path "out" ++ Path "sub/helper.py") = Some (content r) /\
    is_dir
      (fs match file_step demo_remote None "out" "auth" (1, 1) "sub/helper.py"
                  empty_world with
          | Return _ w' => w'
          | _ => empty_world
          end)
      (parent (Path "out" ++ Path "sub/helper.py")) = true.
Proof.
  apply (file_step_downloaded demo_remote None "out" "auth" 1 1 "sub/helper.py"
           empty_world).
  vm_compute. reflexivity.
Defined.

(** ** The headers of the requests *)

Lemma sends_with_same H w w' : sent w' = sent w -> sends_with H w w'.
Proof. intros Hs. exists []. split; [by rewrite app_nil_r | constructor]. Qed.

Lemma sends_with_refl H w : sends_with H w w.
Proof. by apply sends_with_same. Qed.

Lemma sends_with_trans H w1 w2 w3 :
  sends_with H w1 w2 -> sends_with H w2 w3 -> sends_with H w1 w3.
Proof.
  intros (n1 & Hs1 & Hn1) (n2 & Hs2 & Hn2). exists (n1 ++ n2). split.
  - by rewrite Hs2, Hs1, app_assoc.
  - by apply Forall_app.
Qed.

Section Headers.
Context (remote : Request -> Reply) (HEADERS : option (list (string * string))).

Local Abbreviation sends := (respects (sends_with HEADERS) any_exn).

Lemma sends_print s : sends (print s).
Proof. intros w. rewrite run_print. by apply sends_with_same. Qed.

Lemma sends_input prompt : sends (input prompt).
Proof.
  intros w. unfold input. wsimpl.
  destruct (stdin w); [split; [|done]|]; by apply sends_with_same.
Qed.

Lemma sends_makedirs p : sends (makedirs p).
Proof.
  intros w. rewrite run_makedirs.
  destruct (makedirs_from _ _ _); [split; [|done]|]; by apply sends_with_same.
Qed.

Lemma sends_open_wb_write p data : sends (open_wb_write p data).
Proof.
  intros w. rewrite run_open_wb_write.
  repeat destruct (is_dir _ _); try (split; [|done]); by apply sends_with_same.
Qed.

Lemma sends_requests_get u : sends (requests_get remote HEADERS u).
Proof.
  intros w. rewrite run_requests_get. cbn zeta.
  assert (sends_with HEADERS w
            (set_sent (sent w ++ [{| req_url := u; req_headers := HEADERS |}]) w)).
  { eexists. split; [done|]. by repeat constructor. }
  by destruct (remote _).
Qed.

Lemma sends_raise_for_status r : sends (raise_for_status r).
Proof.
  eapply respects_weaken; [| |apply respects_raise_for_status];
    eauto using sends_with_refl.
Qed.

Ltac sends :=
  repeat first
    [ apply sends_print | apply sends_input | apply sends_makedirs
    | apply sends_open_wb_write | apply sends_requests_get
    | apply sends_raise_for_status
    | apply respects_ret; apply sends_with_refl
    | apply respects_raise; [apply sends_with_refl | reflexivity]
    | apply respects_diverge
    | apply respects_bind; [apply sends_with_trans | | intros ?]
    | apply respects_for;
      [apply sends_with_refl | apply sends_with_trans | intros ? ?]
    | apply respects_list_comp;
      [apply sends_with_refl | apply sends_with_trans | intros ?]
    | apply (respects_try _ _ (sends_with_trans HEADERS) any_exn);
      [ | repeat (apply List.Forall_cons; [intros ?; cbn [snd]|]);
          try apply List.Forall_nil
        | done ]
    | match goal with
      | |- respects _ _ (if ?b then _ else _) => destruct b
      | |- respects _ _ (match ?x with _ => _ end) => destruct x
      | |- respects _ _ (match ?x with _ => _ end _) => destruct x
      end ].

Lemma sends_fetch_feature_files fuel feature :
  sends (fetch_feature_files remote HEADERS fuel feature).
Proof.
  revert feature. induction fuel as [|fuel IH]; intros feature;
    cbn [fetch_feature_files]; [apply respects_diverge|].
  sends. unfold fetch_item. sends. apply IH.
Qed.

Lemma sends_main fuel : sends (main remote HEADERS fuel).
Proof.
  unfold main, fetch_available_features, display_available_features,
    get_user_feature_selection, index_of_token, setup_target_directory,
    download_feature_files, download_feature_file, display_summary.
  sends; try apply sends_fetch_feature_files.
Qed.
End Headers.

(** X2: once the token is read, every request of a run carries the
    headers made from it: none at all when the token is empty. *)
Theorem script_requests_headers env token remote fuel w :
  env !! "GITHUB_API_TOKEN" = Some token ->
  match script env remote fuel w with
  | Return _ w' | Raise _ w' =>
      exists new,
        sent w' = sent w ++ new /\
        Forall (fun rq => req_headers rq
                          = match token with
                            | EmptyString => None
                            | _ => Some [("Authorization", "token " +:+ token)]
                            end) new
  | Diverge => True
  end.
Proof.
  intros Henv. unfold script, load_constants, GITHUB_TOKEN, env_str. rewrite Henv.
  pose proof (sends_main remote (HEADERS_of token) fuel w) as Hmain.
  destruct (main _ _ _ w) as [[] w'|e w'|]; [exact Hmain | apply Hmain | done].
Qed.

Lemma script_requests_headers_witness :
  match script {["GITHUB_API_TOKEN" := ""]} demo_remote 3 (typing ["1"; "out"]) with
  | Return _ w' | Raise _ w' =>
      exists new,
        sent w' = sent (typing ["1"; "out"]) ++ new /\
        Forall (fun rq => req_headers rq = None) new
  | Diverge => True
  end.
Proof.
  apply (script_requests_headers {["GITHUB_API_TOKEN" := ""]} "").
  reflexivity.
Defined.

(** ** More on listing *)

Section ListingMore.
Context (remote : Request -> Reply) (HEADERS : option (list (string * string))).




Lemma for_raises {A B} (body : B -> A -> M B) pre x post acc w acc1 w1 e w2 :
  for_ pre body acc w = Return acc1 w1 ->
  body acc1 x w1 = Raise e w2 ->
  for_ (pre ++ x :: post) body acc w = Raise e w2.
Proof.
  revert acc w. induction pre as [|y pre IH]; intros acc w; cbn [for_ app].
  - rewrite run_ret. intros [= -> ->] Hx. by rewrite run_bind, Hx.
  - rewrite !run_bind. destruct (body acc y w) as [acc' w'| |]; [|done..].
    apply IH.
Qed.

(** X5: an exception of the call on a sub-directory comes out of the
    outer call as it is, with the files found so far dropped; the
    entries after the directory are not looked at. *)
Theorem fetch_feature_files_propagates fuel feature_name w r pre d post
    files w1 e w2 :
  remote {| req_url := API_FEATURE_CONTENT_URL feature_name;
            req_headers := HEADERS |} = Answer r ->
  (status_code r < 400 \/ 600 <= status_code r) ->
  json r = pre ++ d :: post ->
  type d = "dir" ->
  for_ pre (fetch_item (fetch_feature_files remote HEADERS fuel) feature_name) []
    (set_sent (sent w ++ [{| req_url := API_FEATURE_CONTENT_URL feature_name;
                             req_headers := HEADERS |}]) w)
  = Return files w1 ->
  fetch_feature_files remote HEADERS fuel (feature_name +:+ "/" +:+ name d) w1
  = Raise e w2 ->
  fetch_feature_files remote HEADERS (S fuel) feature_name w = Raise e w2.
Proof.
  intros Hr Hok Hjson Hd Hpre Hsub. cbn [fetch_feature_files].
  destruct (run_listing remote HEADERS feature_name (json r) w) as (r' & Hjson' & Hget & Hstatus).
  { by exists r. }
  rewrite run_bind, Hget. cbn beta iota. rewrite run_bind, Hstatus. cbn beta iota zeta.
  rewrite Hjson', Hjson.
  eapply for_raises; [exact Hpre|].
  unfold fetch_item. rewrite Hd. change (String.eqb "dir" "dir") with true.
  cbn beta iota. by rewrite run_bind, Hsub.
Qed.
End ListingMore.


Lemma fetch_feature_files_propagates_witness :
  exists msg w2,
    fetch_feature_files broken_remote None 2 "web" empty_world
    = Raise (Exn HTTPError msg) w2.
Proof.
  eexists _, _.
  eapply (fetch_feature_files_propagates broken_remote None 1 "web" empty_world _
            [{| name := "app.py"; type := "file" |}]
            {| name := "static"; type := "dir" |}
            [{| name := "README"; type := "file" |}]);
    [reflexivity | left; cbn; lia | reflexivity | reflexivity
    | reflexivity | reflexivity].
Defined.
(** ** More on downloading one file *)

Section DownloadMore.
Context (remote : Request -> Reply) (HEADERS : option (list (string * string))).

(** X6: a download that returns has sent one request, for [u], and
    written one file: [path] holds exactly the body of the response,
    whatever it held before, and every other path is as it was. *)
Theorem download_feature_file_writes_body u path w w' :
  download_feature_file remote HEADERS u path w = Return tt w' ->
  exists r,
    remote {| req_url := u; req_headers := HEADERS |} = Answer r /\
    read_bytes (fs w') path = Some (content r) /\
    (forall q, q <> path -> fs w' !! q = fs w !! q) /\
    sent w' = sent w ++ [{| req_url := u; req_headers := HEADERS |}] /\
    stdout w' = stdout w ++ ["File successfully downloaded: " +:+ Path_str path].
Proof.
  rewrite run_download_feature_file. cbn zeta.
  destruct (remote _) as [r|msg]; [|done]. rewrite run_raise_for_status.
  destruct (_ && _); [done|]. rewrite run_open_wb_write. wsimpl.
  destruct (is_dir (fs w) path); [done|].
  destruct (is_dir (fs w) (parent path)); [|done].
  intros [= <-]. exists r. wsimpl. split_and!; [done| | |done..].
  - unfold read_bytes. by rewrite lookup_insert_eq.
  - intros q Hq. by rewrite lookup_insert_ne.
Qed.

(** X7: when the request fails, by a fault of the network or by an
    answer with an error status, the download raises a
    [RequestException] and the disk is not touched: the file is not
    opened, so what [path] held stays. *)
Theorem download_feature_file_request_fails u path w :
  match remote {| req_url := u; req_headers := HEADERS |} with
  | NetworkFault _ => True
  | Answer r => 400 <= status_code r < 600
  end ->
  exists e w',
    download_feature_file remote HEADERS u path w = Raise e w' /\
    is_RequestException e = true /\
    fs w' = fs w /\ stdout w' = stdout w.
Proof.
  rewrite run_download_feature_file. cbn zeta.
  destruct (remote _) as [r|msg]; intros Hfail.
  - rewrite run_raise_for_status.
    replace ((400 <=? status_code r) && (status_code r <? 600)) with true
      by (symmetry; apply andb_true_iff; lia).
    by eexists _, _.
  - by eexists _, _.
Qed.
End DownloadMore.

Lemma download_feature_file_writes_body_witness :
  exists r,
    demo_remote {| req_url := RAW_URL +:+ "/auth/main.py"; req_headers := None |}
    = Answer r /\
    read_bytes
      (fs (world_of (download_feature_file demo_remote None
                       (RAW_URL +:+ "/auth/main.py") ["main.py"]
                       (set_fs {[ ["main.py"] := File [x00] ]} empty_world))))
      ["main.py"] = Some (content r) /\
    (forall q, q <> ["main.py"] ->
       fs (world_of (download_feature_file demo_remote None
                       (RAW_URL +:+ "/auth/main.py") ["main.py"]
                       (set_fs {[ ["main.py"] := File [x00] ]} empty_world))) !! q
       = fs (set_fs {[ ["main.py"] := File [x00] ]} empty_world) !! q) /\
    sent (world_of (download_feature_file demo_remote None
                       (RAW_URL +:+ "/auth/main.py") ["main.py"]
                       (set_fs {[ ["main.py"] := File [x00] ]} empty_world)))
    = sent (set_fs {[ ["main.py"] := File [x00] ]} empty_world)
      ++ [{| req_url := RAW_URL +:+ "/auth/main.py"; req_headers := None |}] /\
    stdout (world_of (download_feature_file demo_remote None
                       (RAW_URL +:+ "/auth/main.py") ["main.py"]
                       (set_fs {[ ["main.py"] := File [x00] ]} empty_world)))
    = stdout (set_fs {[ ["main.py"] := File [x00] ]} empty_world)
      ++ ["File successfully downloaded: " +:+ Path_str ["main.py"]].
Proof.
  apply (download_feature_file_writes_body demo_remote None
           (RAW_URL +:+ "/auth/main.py") ["main.py"]
           (set_fs {[ ["main.py"] := File [x00] ]} empty_world)).
  vm_compute. reflexivity.
Defined.

Lemma download_feature_file_request_fails_witness :
  exists e w',
    download_feature_file demo_remote None (RAW_URL +:+ "/logging/log.py")
      ["log.py"] (set_fs {[ ["log.py"] := File [x01] ]} empty_world)
    = Raise e w' /\
    is_RequestException e = true /\
    fs w' = fs (set_fs {[ ["log.py"] := File [x01] ]} empty_world) /\
    stdout w' = stdout (set_fs {[ ["log.py"] := File [x01] ]} empty_world).
Proof.
  apply download_feature_file_request_fails. exact I.
Defined.
(** ** Displaying the catalog *)

Section Display.
Context (remote : Request -> Reply) (HEADERS : option (list (string * string))).


End Display.


(** A listing that fails is a warning, and the next feature is listed. *)
Example display_available_features_after_failure :
  catalog_lines demo_remote None 3 0 ["nosuch"; "auth"]
  = ["1: nosuch";
     "Warning: Could not list files for nosuch: 404 Client Error: Not Found for url: "
     +:+ API_FEATURE_CONTENT_URL "nosuch";
     "2: auth";
     "Feature files: ['main.py', 'sub/helper.py']"].
Proof. vm_compute. reflexivity. Qed.

(** ** More on the selection and the target directory *)

(** X9: whatever the line typed, [get_user_feature_selection] returns:
    no [ValueError] or [IndexError] gets out of it; every feature it
    returns is one of [features]; it reads that one line and touches
    neither the disk nor the network. *)
Theorem selection_within_catalog features selected rest w :
  stdin w = selected :: rest ->
  exists chosen w',
    get_user_feature_selection features w = Return chosen w' /\
    (forall f, f ∈ chosen -> f ∈ features) /\
    stdin w' = rest /\ fs w' = fs w /\ sent w' = sent w.
Proof.
  intros Hin. unfold get_user_feature_selection.
  rewrite run_bind, (run_input _ _ _ _ Hin). cbn beta iota.
  destruct (String.eqb _ _); [by eexists _, _|].
  rewrite run_try_except, run_bind. fold selection_prompt.
  destruct (tokens_outcome (Py.split "," selected) (prompted selection_prompt rest w))
    as [(ns & Hns & ->)|(_ & msg & ->)]; cbn beta iota.
  2:{ cbn [List.find fst snd is_ValueError exn_cls]. msimpl.
      eexists _, _. split; [reflexivity|]. split_and!; [|done..].
      intros f Hf. by apply elem_of_nil in Hf. }
  rewrite run_bind.
  destruct (validate_outcome features (List.map (fun n => n - 1) ns)
              (prompted selection_prompt rest w)) as [[Hall Hval]|(_ & msg & Hval)];
    cbn zeta in Hval; rewrite Hval; cbn beta iota.
  2:{ cbn [List.find fst snd is_ValueError exn_cls]. msimpl.
      eexists _, _. split; [reflexivity|]. split_and!; [|done..].
      intros f Hf. by apply elem_of_nil in Hf. }
  destruct (pick_outcome features _ (prompted selection_prompt rest w) Hall)
    as (chosen & -> & Hch).
  exists chosen, (prompted selection_prompt rest w). split_and!; [done| |done..].
  intros f Hf. apply list_elem_of_lookup in Hf as [i Hi].
  destruct (Forall2_lookup_r _ _ _ _ _ Hch Hi) as (idx & _ & Hidx).
  by eapply list_elem_of_lookup_2.
Qed.

Lemma selection_within_catalog_witness :
  exists chosen w',
    get_user_feature_selection ["auth"; "logging"] (typing ["2,-1"; "out"])
    = Return chosen w' /\
    (forall f, f ∈ chosen -> f ∈ ["auth"; "logging"]) /\
    stdin w' = ["out"] /\ fs w' = fs (typing ["2,-1"; "out"]) /\
    sent w' = sent (typing ["2,-1"; "out"]).
Proof. apply (selection_within_catalog _ "2,-1" ["out"]). reflexivity. Defined.

(** X10: when the directory can be made, [setup_target_directory]
    returns its name, which is not empty; the directory is there
    afterwards; what was on disk is still there, and no file was
    added or changed. *)
Theorem setup_target_directory_makes raw rest w f :
  stdin w = raw :: rest ->
  makedirs_from (fs w) [] (Path (target_of raw)) = inr f ->
  setup_target_directory w = Return (target_of raw) (directory_ready raw f rest w) /\
  target_of raw <> "" /\
  is_dir (fs (directory_ready raw f rest w)) (Path (target_of raw)) = true /\
  (forall q n, fs w !! q = Some n ->
               fs (directory_ready raw f rest w) !! q = Some n) /\
  (forall q data, fs (directory_ready raw f rest w) !! q = Some (File data) ->
                  fs w !! q = Some (File data)).
Proof.
  intros Hin Hmk. rewrite (run_setup_target_directory _ _ _ Hin), Hmk.
  destruct (makedirs_from_grows _ _ _ _ Hmk) as [Hkeep Hfiles].
  split_and!; [done | apply target_of_nonempty | | done..].
  unfold directory_ready. wsimpl. by eapply makedirs_from_made.
Qed.

Lemma setup_target_directory_makes_witness :
  setup_target_directory (set_fs {[ ["notes.txt"] := File [x01] ]} (typing ["a/b"]))
  = Return (target_of "a/b")
      (directory_ready "a/b"
         (<[ ["a"; "b"] := Dir ]> (<[ ["a"] := Dir ]> {[ ["notes.txt"] := File [x01] ]}))
         [] (set_fs {[ ["notes.txt"] := File [x01] ]} (typing ["a/b"]))) /\
  target_of "a/b" <> "" /\
  is_dir (fs (directory_ready "a/b"
         (<[ ["a"; "b"] := Dir ]> (<[ ["a"] := Dir ]> {[ ["notes.txt"] := File [x01] ]}))
         [] (set_fs {[ ["notes.txt"] := File [x01] ]} (typing ["a/b"]))))
    (Path (target_of "a/b")) = true /\
  (forall q n,
      fs (set_fs {[ ["notes.txt"] := File [x01] ]} (typing ["a/b"])) !! q = Some n ->
      fs (directory_ready "a/b"
         (<[ ["a"; "b"] := Dir ]> (<[ ["a"] := Dir ]> {[ ["notes.txt"] := File [x01] ]}))
         [] (set_fs {[ ["notes.txt"] := File [x01] ]} (typing ["a/b"]))) !! q = Some n) /\
  (forall q data,
      fs (directory_ready "a/b"
         (<[ ["a"; "b"] := Dir ]> (<[ ["a"] := Dir ]> {[ ["notes.txt"] := File [x01] ]}))
         [] (set_fs {[ ["notes.txt"] := File [x01] ]} (typing ["a/b"]))) !! q
      = Some (File data) ->
      fs (set_fs {[ ["notes.txt"] := File [x01] ]} (typing ["a/b"])) !! q
      = Some (File data)).
Proof.
  apply (setup_target_directory_makes "a/b" []); [reflexivity|].
  vm_compute. reflexivity.
Defined.
(** ** Frames of a whole run

    A relation between worlds that every primitive step keeps is kept
    by every function of the script, and by [main], out of which no
    exception comes. *)

Section Frame.
Context (remote : Request -> Reply) (HEADERS : option (list (string * string))).
Context (R : World -> World -> Prop).
Hypothesis R_refl : forall w, R w w.
Hypothesis R_trans : forall w1 w2 w3, R w1 w2 -> R w2 w3 -> R w1 w3.
Hypothesis R_stdout : forall w o, R w (set_stdout o w).
Hypothesis R_stdin : forall w i, R w (set_stdin i w).
Hypothesis R_sent : forall w u,
  R w (set_sent (sent w ++ [{| req_url := u; req_headers := HEADERS |}]) w).
Hypothesis R_makedirs : forall w p f,
  makedirs_from (fs w) [] p = inr f -> R w (set_fs f w).
Hypothesis R_write : forall w p data,
  is_dir (fs w) p = false -> is_dir (fs w) (parent p) = true ->
  R w (set_fs (<[p := File data]> (fs w)) w).

Lemma frame_print E s : respects R E (print s).
Proof. intros w. rewrite run_print. apply R_stdout. Qed.

Lemma frame_input prompt : respects R is_Exception (input prompt).
Proof.
  intros w. unfold input. cbn zeta. cbn [stdin set_stdout].
  destruct (stdin w) as [|line rest].
  - split; [apply R_stdout | done].
  - eapply R_trans; [apply R_stdout | apply R_stdin].
Qed.

Lemma frame_requests_get u : respects R is_Exception (requests_get remote HEADERS u).
Proof.
  intros w. rewrite run_requests_get. cbn zeta.
  destruct (remote _); [apply R_sent | split; [apply R_sent | done]].
Qed.

Lemma frame_raise_for_status r : respects R is_Exception (raise_for_status r).
Proof.
  intros w. rewrite run_raise_for_status. destruct (_ && _); [by split | done].
Qed.

Lemma frame_makedirs p : respects R is_Exception (makedirs p).
Proof.
  intros w. rewrite run_makedirs.
  destruct (makedirs_from _ _ _) as [e|f] eqn:Hmk; [|by eapply R_makedirs].
  split; [done|]. apply makedirs_from_raises in Hmk.
  unfold is_Exception. by rewrite Hmk.
Qed.

Lemma frame_open_wb_write p data : respects R is_Exception (open_wb_write p data).
Proof.
  intros w. rewrite run_open_wb_write.
  destruct (is_dir (fs w) p) eqn:Hp; [by split|].
  destruct (is_dir (fs w) (parent p)) eqn:Hparent; [by apply R_write | by split].
Qed.

Ltac frame :=
  repeat first
    [ apply frame_print | apply frame_input | apply frame_requests_get
    | apply frame_raise_for_status | apply frame_makedirs
    | apply frame_open_wb_write
    | apply respects_ret; apply R_refl
    | apply respects_raise; [apply R_refl | reflexivity]
    | apply respects_diverge
    | apply respects_bind; [apply R_trans | | intros ?]
    | apply respects_for; [apply R_refl | apply R_trans | intros ? ?]
    | apply respects_list_comp; [apply R_refl | apply R_trans | intros ?]
    | apply (respects_try _ _ R_trans is_Exception);
      [ | repeat (apply List.Forall_cons; [intros ?; cbn [snd]|]);
          try apply List.Forall_nil
        | done ]
    | match goal with
      | |- respects _ _ (if ?b then _ else _) => destruct b
      | |- respects _ _ (match ?x with _ => _ end) => destruct x
      | |- respects _ _ (match ?x with _ => _ end _) => destruct x
      end ].

Lemma frame_fetch_feature_files fuel feature :
  respects R is_Exception (fetch_feature_files remote HEADERS fuel feature).
Proof.
  revert feature. induction fuel as [|fuel IH]; intros feature;
    cbn [fetch_feature_files]; [apply respects_diverge|].
  frame. unfold fetch_item. frame. apply IH.
Qed.

Lemma frame_fetch_available_features :
  respects R is_Exception (fetch_available_features remote HEADERS).
Proof. unfold fetch_available_features. frame. Qed.

Lemma frame_display_available_features fuel features :
  respects R is_Exception (display_available_features remote HEADERS fuel features).
Proof.
  unfold display_available_features. frame. apply frame_fetch_feature_files.
Qed.

Lemma frame_get_user_feature_selection features :
  respects R is_Exception (get_user_feature_selection features).
Proof. unfold get_user_feature_selection, index_of_token. frame. Qed.

Lemma frame_setup_target_directory :
  respects R is_Exception setup_target_directory.
Proof. unfold setup_target_directory. frame. Qed.

Lemma frame_download_feature_files fuel chosen target_dir :
  respects R is_Exception
    (download_feature_files remote HEADERS fuel chosen target_dir).
Proof.
  unfold download_feature_files, download_feature_file. frame.
  apply frame_fetch_feature_files.
Qed.

Lemma frame_display_summary total successful :
  respects R is_Exception (display_summary total successful).
Proof. unfold display_summary. frame. Qed.

(** The clauses of [main] leave nothing unhandled. *)
Lemma frame_main fuel : respects R no_exn (main remote HEADERS fuel).
Proof.
  unfold main. apply (respects_try _ _ R_trans is_Exception).
  - apply respects_bind; [apply R_trans | apply frame_print | intros _].
    apply respects_bind; [apply R_trans | apply frame_fetch_available_features |].
    intros features.
    apply respects_bind; [apply R_trans | apply frame_display_available_features |].
    intros _.
    apply respects_bind; [apply R_trans | apply frame_get_user_feature_selection |].
    intros [|c chosen]; [apply respects_ret, R_refl|].
    apply respects_bind; [apply R_trans | apply frame_setup_target_directory |].
    intros [|a target_dir]; [apply respects_ret, R_refl|].
    apply respects_bind; [apply R_trans | apply frame_download_feature_files |].
    intros [total successful]. apply frame_display_summary.
  - repeat (apply List.Forall_cons; [intros ?; cbn [snd]|]); try apply List.Forall_nil.
    + apply respects_bind; [apply R_trans | apply frame_print | intros _].
      apply frame_print.
    + apply frame_print.
    + apply respects_bind; [apply R_trans | apply frame_print | intros _].
      apply frame_print.
  - intros e He. cbn [List.find fst]. destruct (is_RequestException e); [done|].
    destruct (is_KeyboardInterrupt e); [done|]. by rewrite He.
Qed.
End Frame.

(** X11: no exception comes out of [main]: a run returns, unless a
    listing never ends. *)
Theorem main_never_raises remote HEADERS fuel w :
  match main remote HEADERS fuel w with
  | Raise _ _ => False
  | _ => True
  end.
Proof.
  pose proof (frame_main remote HEADERS (fun _ _ => True)) as Hmain.
  specialize (Hmain ltac:(done) ltac:(done) ltac:(done) ltac:(done) ltac:(done)
                ltac:(done) ltac:(done) fuel w).
  destruct (main _ _ _ w); [done| |done]. by destruct Hmain.
Qed.

Lemma resolves_app f above t1 t2 :
  resolves f above (t1 ++ t2)
  = resolves f above t1 && resolves f (above ++ t1) t2.
Proof.
  revert above. induction t1 as [|c t1 IH]; intros above; cbn.
  - by rewrite app_nil_r.
  - destruct (f !! (above ++ [c])) as [[|data]|]; [|done..].
    by rewrite IH, <- app_assoc.
Qed.

Lemma is_dir_of_entry f p :
  p <> [] -> is_dir f (parent p) = true -> f !! p = Some Dir -> is_dir f p = true.
Proof.
  intros Hp Hparent Hdir. destruct p as [|x p _] using rev_ind; [done|].
  unfold parent in Hparent. rewrite removelast_last in Hparent.
  unfold is_dir in *. rewrite resolves_app, Hparent. cbn. by rewrite Hdir.
Qed.

Lemma keeps_disk_refl w : keeps_disk w w.
Proof. intros q [|data] Hq; [done | by exists data]. Qed.

Lemma keeps_disk_trans w1 w2 w3 :
  keeps_disk w1 w2 -> keeps_disk w2 w3 -> keeps_disk w1 w3.
Proof.
  intros H12 H23 q n Hq. specialize (H12 q n Hq). destruct n as [|data].
  - apply (H23 q Dir H12).
  - destruct H12 as [data' H12]. apply (H23 q (File data') H12).
Qed.

Lemma keeps_disk_same w w' : fs w' = fs w -> keeps_disk w w'.
Proof. intros Hfs q n. rewrite Hfs. destruct n as [|data]; [done | by exists data]. Qed.

(** X12: a run deletes nothing: every directory on disk before it is a
    directory after it, and every file is still a file (a download may
    have replaced its bytes). *)
Theorem main_keeps_disk remote HEADERS fuel w :
  match main remote HEADERS fuel w with
  | Return _ w' | Raise _ w' => keeps_disk w w'
  | Diverge => True
  end.
Proof.
  pose proof (frame_main remote HEADERS keeps_disk keeps_disk_refl keeps_disk_trans)
    as Hmain.
  assert (respects keeps_disk no_exn (main remote HEADERS fuel)) as Hrun.
  { apply Hmain.
    - intros w0 o. by apply keeps_disk_same.
    - intros w0 i. by apply keeps_disk_same.
    - intros w0 u. by apply keeps_disk_same.
    - intros w0 p f Hmk q n Hq. destruct (makedirs_from_grows _ _ _ _ Hmk) as [Hkeep _].
      cbn [fs set_fs]. rewrite (Hkeep _ _ Hq). destruct n as [|data]; [done | by exists data].
    - intros w0 p data Hp Hparent q n Hq. cbn [fs set_fs].
      destruct (decide (p = q)) as [<-|Hne].
      + rewrite lookup_insert_eq. destruct n as [|data']; [|by exists data].
        exfalso. assert (p <> []) as Hnil by (intros ->; done).
        by rewrite (is_dir_of_entry _ _ Hnil Hparent Hq) in Hp.
      + rewrite lookup_insert_ne by done. rewrite Hq.
        destruct n as [|data']; [done | by exists data']. }
  specialize (Hrun w). destruct (main _ _ _ w) as [[] w'|e w'|]; [done| |done].
  by destruct Hrun.
Qed.
(** ** The run as a whole *)

Lemma display_summary_returns t s w :
  exists w', display_summary t s w = Return tt w'.
Proof.
  unfold display_summary. msimpl.
  destruct (andb _ _); [|destruct (0 <? s)]; msimpl; by eexists.
Qed.

Section Run.
Context (remote : Request -> Reply) (HEADERS : option (list (string * string))).

(** X13: when the catalog cannot be fetched, by a fault of the network
    or by an answer with an error status, [main] returns after the two
    lines of its message: it has sent that one request, read no input
    and left the disk as it was. *)
Theorem main_catalog_failure fuel w :
  match remote {| req_url := API_URL; req_headers := HEADERS |} with
  | NetworkFault _ => True
  | Answer r => 400 <= status_code r < 600
  end ->
  exists msg,
    main remote HEADERS fuel w
    = Return tt
        (set_stdout
           (stdout w ++ ["Fetching available features...";
                         "Error: Could not connect to GitHub API: " +:+ msg;
                         "Please check your internet connection and GitHub token."])
           (set_sent (sent w ++ [{| req_url := API_URL; req_headers := HEADERS |}])
              w)).
Proof.
  intros Hfail. unfold main, fetch_available_features.
  rewrite run_try_except, run_bind, run_print. cbn beta iota.
  rewrite !run_bind, run_requests_get. cbn zeta.
  destruct (remote _) as [r|msg]; cbn beta iota.
  - rewrite run_bind, run_raise_for_status.
    replace ((400 <=? status_code r) && (status_code r <? 600)) with true
      by (symmetry; apply andb_true_iff; lia).
    cbn beta iota. cbn [List.find fst snd is_RequestException exn_cls]. msimpl.
    eexists. wsimpl. by rewrite <- !app_assoc.
  - cbn [List.find fst snd is_RequestException exn_cls]. msimpl.
    eexists. wsimpl. by rewrite <- !app_assoc.
Qed.

(** X14: when the selection comes back empty (a rejected line, or an
    empty catalog), [main] returns at once: the directory is not asked
    for, nothing is written to disk and no download is requested. *)
Theorem main_stops_on_empty_selection fuel w0 w1 :
  selection_phase remote HEADERS fuel w0 = Return [] w1 ->
  main remote HEADERS fuel w0 = Return tt w1 /\
  nothing_downloaded w0 w1.
Proof.
  intros Hphase. split.
  - unfold main, selection_phase in *.
    rewrite run_try_except. rewrite !run_bind in *. rewrite !run_print in *.
    cbn beta iota in *. rewrite !run_bind in *.
    destruct (fetch_available_features _ _ _) as [features w2| |]; [|done..].
    rewrite !run_bind in *.
    destruct (display_available_features _ _ _ _ _) as [[] w3| |]; [|done..].
    rewrite !run_bind in *. by rewrite Hphase.
  - pose proof (quiet_selection_phase remote HEADERS fuel w0) as Hquiet.
    by rewrite Hphase in Hquiet.
Qed.

(** The counters of a run that returns, whatever the fuel. *)
Lemma feature_step_bounds fuel target_dir feature t s w t' s' w' :
  feature_step remote HEADERS fuel target_dir (t, s) feature w
  = Return (t', s') w' ->
  0 <= s' - s <= t' - t.
Proof.
  unfold feature_step. rewrite run_bind, run_print. cbn beta iota.
  rewrite run_try_except, run_bind.
  destruct (fetch_feature_files _ _ _ _ _) as [files w1|e w1|]; [| |done].
  - destruct (files_loop_outcome remote HEADERS target_dir feature files t s w1)
      as (s1 & w2 & out & -> & _ & Hsucc & Hfail).
    intros [= <- <- <-]. unfold reported_successes in Hsucc.
    unfold reported_failures in Hfail. lia.
  - cbn [List.find fst snd]. destruct (is_RequestException e); [|done].
    cbn [snd]. msimpl. intros [= <- <- <-]. lia.
Qed.

Lemma download_feature_files_bounds fuel chosen target_dir w t s w' :
  download_feature_files remote HEADERS fuel chosen target_dir w
  = Return (t, s) w' ->
  0 <= s <= t.
Proof.
  rewrite download_feature_files_steps.
  enough (forall t0 s0 w0,
             for_ chosen (feature_step remote HEADERS fuel target_dir) (t0, s0) w0
             = Return (t, s) w' -> 0 <= s - s0 <= t - t0) as H.
  { intros Hrun. specialize (H 0 0 w Hrun). lia. }
  induction chosen as [|f chosen IH]; intros t0 s0 w0; cbn [for_].
  - rewrite run_ret. intros [= <- <- <-]. lia.
  - rewrite run_bind.
    destruct (feature_step _ _ _ _ _ _ _) as [[t1 s1] w1| |] eqn:Hstep; [|done..].
    apply feature_step_bounds in Hstep. intros Hrest. apply IH in Hrest. lia.
Qed.

(** X15: a run that gets a selection and a directory ends with the
    summary of its downloads: [main] is then [display_summary] on the
    counters of [download_feature_files], which satisfy
    [0 <= successful <= total], so the last line printed says all
    succeeded, partially completed or nothing downloaded as the
    counters tell. *)
Theorem main_full_run fuel w0 chosen w1 target_dir w2 t s w3 :
  selection_phase remote HEADERS fuel w0 = Return chosen w1 ->
  chosen <> [] ->
  setup_target_directory w1 = Return target_dir w2 ->
  target_dir <> "" ->
  download_feature_files remote HEADERS fuel chosen target_dir w2
  = Return (t, s) w3 ->
  main remote HEADERS fuel w0 = display_summary t s w3 /\
  0 <= s <= t /\
  last_printed (main remote HEADERS fuel w0) = Some (claimed_summary t s).
Proof.
  intros Hphase Hchosen Hsetup Htarget Hrun.
  assert (main remote HEADERS fuel w0 = display_summary t s w3) as Hmain.
  { unfold main, selection_phase in *.
    rewrite run_try_except. rewrite !run_bind in *. rewrite !run_print in *.
    cbn beta iota in *. rewrite !run_bind in *.
    destruct (fetch_available_features _ _ _) as [features w4| |]; [|done..].
    rewrite !run_bind in *.
    destruct (display_available_features _ _ _ _ _) as [[] w5| |]; [|done..].
    rewrite !run_bind in *. rewrite Hphase. cbn beta iota.
    destruct chosen as [|c chosen]; [done|].
    rewrite run_bind, Hsetup. cbn beta iota.
    destruct target_dir as [|a target_dir]; [done|].
    rewrite run_bind, Hrun. cbn beta iota.
    by destruct (display_summary_returns t s w3) as [w6 ->]. }
  pose proof (download_feature_files_bounds _ _ _ _ _ _ _ Hrun) as Hbounds.
  split; [done|]. split; [done|].
  rewrite Hmain, display_summary_last. unfold claimed_summary.
  destruct (Z.eqb_spec s t) as [->|Hne]; destruct (Z.ltb_spec 0 t);
    cbn [andb]; try done; destruct (Z.ltb_spec 0 s); cbn [andb]; try done;
    destruct (Z.ltb_spec s t); try done; lia.
Qed.
End Run.

Lemma main_catalog_failure_witness :
  exists msg,
    main broken_remote None 3 (typing ["all"; "out"])
    = Return tt
        (set_stdout
           (stdout (typing ["all"; "out"])
            ++ ["Fetching available features...";
                "Error: Could not connect to GitHub API: " +:+ msg;
                "Please check your internet connection and GitHub token."])
           (set_sent (sent (typing ["all"; "out"])
                      ++ [{| req_url := API_URL; req_headers := None |}])
              (typing ["all"; "out"]))).
Proof. apply main_catalog_failure. exact I. Defined.

Lemma main_stops_on_empty_selection_witness :
  main demo_remote None 3 (typing ["1,9"; "out"])
  = Return tt (world_of (selection_phase demo_remote None 3 (typing ["1,9"; "out"]))) /\
  nothing_downloaded (typing ["1,9"; "out"])
    (world_of (selection_phase demo_remote None 3 (typing ["1,9"; "out"]))).
Proof.
  apply main_stops_on_empty_selection. vm_compute. reflexivity.
Defined.

Lemma main_full_run_witness :
  main demo_remote None 3 (typing ["2"; "out"])
  = display_summary 2 1
      (world_of (download_feature_files demo_remote None 3 ["logging"] "out"
         (world_of (setup_target_directory
            (world_of (selection_phase demo_remote None 3 (typing ["2"; "out"]))))))) /\
  0 <= 1 <= 2 /\
  last_printed (main demo_remote None 3 (typing ["2"; "out"]))
  = Some (claimed_summary 2 1).
Proof.
  eapply (main_full_run demo_remote None 3 _ ["logging"] _ "out");
    [ vm_compute; reflexivity | discriminate | vm_compute; reflexivity
    | discriminate | vm_compute; reflexivity ].
Defined.

(** X16: the only exception that comes out of the script is the one
    of the missing token: when the script raises, [GITHUB_API_TOKEN]
    is not set, and nothing was printed, sent or written. *)
Theorem script_raises_only_without_token env remote fuel w e w' :
  script env remote fuel w = Raise e w' ->
  env !! "GITHUB_API_TOKEN" = None /\ exn_cls e = EnvError /\ w' = w.
Proof.
  unfold script, load_constants, GITHUB_TOKEN, env_str.
  destruct (env !! "GITHUB_API_TOKEN") as [token|]; [|by intros [= <- <-]].
  intros Hrun.
  pose proof (frame_main remote (HEADERS_of token) (fun _ _ => True)) as Hmain.
  specialize (Hmain ltac:(done) ltac:(done) ltac:(done) ltac:(done) ltac:(done)
                ltac:(done) ltac:(done) fuel w).
  rewrite Hrun in Hmain. by destruct Hmain.
Qed.

Lemma script_raises_only_without_token_witness :
  (∅ : gmap string string) !! "GITHUB_API_TOKEN" = None /\
  exn_cls (Exn EnvError
             ("Environment variable " +:+ dquote +:+ "GITHUB_API_TOKEN" +:+ dquote
              +:+ " not set")) = EnvError /\
  typing ["all"] = typing ["all"].
Proof.
  apply (script_raises_only_without_token ∅ demo_remote 3 (typing ["all"])).
  reflexivity.
Defined.
